(** * H5OutputFile: the HDF5 output adapter of VELOCIraptor-STF

    A shallow embedding of [src/hdf5_output.h].  The class holds one file
    handle and forwards every operation to the HDF5 C library; the library
    is outside the repository, so it enters the development as a parameter:
    a type of library states and a function answering each call.  Every
    call the adapter issues is logged together with the value the library
    returned, so that statements about "what was asked of the library" are
    statements about the log. *)

From stdpp Require Import base list strings gmap.
From Stdlib Require Import ZArith Lia.

Local Open Scope Z_scope.

(** ** Constants *)

(** [#define CHUNK_SIZE 8192] and [#define DEFLATE 6] (lines 9-10). *)
Definition CHUNK_SIZE : Z := 8192.
Definition DEFLATE : Z := 6.

(** The names the header takes from [<hdf5.h>] and the build flag it tests.
    Their values belong to the library and to the build, not to the
    repository. *)
Class Hdf5Env := {
  USEMPI : bool;                 (* #ifdef USEMPI *)
  H5F_ACC_TRUNC : Z;
  H5P_DEFAULT : Z;
  H5P_DATASET_CREATE : Z;
  H5D_CHUNKED : Z;
  H5S_ALL : Z;
  H5S_SCALAR : Z;
  H5T_NATIVE_FLOAT : Z;
  H5T_NATIVE_DOUBLE : Z;
  H5T_NATIVE_INT : Z;
  H5T_NATIVE_LONG : Z;
  H5T_NATIVE_LLONG : Z;
  H5T_NATIVE_UINT : Z;
  H5T_NATIVE_ULONG : Z;
  H5T_NATIVE_ULLONG : Z
}.

(** ** Element types *)

(** The overloads of [hdf5_type] (lines 58-65), each named by the type of
    its parameter. *)
Inductive ctype : Type :=
| c_float
| c_double
| c_int
| c_long
| c_long_long
| c_unsigned_int
| c_unsigned_long
| c_unsigned_long_long.

Global Instance ctype_eq_dec : EqDecision ctype.
Proof. solve_decision. Defined.







(** ** Strings handed to the library *)

(** [s.c_str()] as a C function reads it: the characters of the
    [std::string] up to its first NUL.  The library is given these; the
    messages, built by [+] on [std::string], carry the whole string. *)
Fixpoint c_str (s : string) : string :=
  match s with
  | EmptyString => EmptyString
  | String (Ascii.Ascii false false false false false false false false) _ =>
      EmptyString
  | String a s' => String a (c_str s')
  end.

(** ** Calls to the HDF5 library *)

(** One constructor per library function the header calls, with the
    arguments in the order of the C prototype.  [hid_t], [herr_t], [int],
    [hsize_t] and the enumerations are integers; an array argument is the
    list it points to; a [NULL] or defaulted argument that the header never
    varies is left out ([maxdims] of [H5Screate_simple]). *)
Inductive h5call : Type :=
| H5Fcreate (filename : string) (flags fcpl_id fapl_id : Z)
| H5Fclose (file_id : Z)
| H5Screate_simple (rank : Z) (dims : list Z)
| H5Screate (type : Z)
| H5Sclose (space_id : Z)
| H5Pcreate (cls_id : Z)
| H5Pset_layout (plist_id layout : Z)
| H5Pset_chunk (plist_id ndims : Z) (dim : list Z)
| H5Pset_deflate (plist_id level : Z)
| H5Pclose (plist_id : Z)
| H5Dcreate (loc_id : Z) (name : string)
            (dtype_id space_id lcpl_id dcpl_id dapl_id : Z)
| H5Dwrite (dset_id mem_type_id mem_space_id file_space_id xfer_plist_id : Z)
           (buf : list Z)
| H5Dclose (dset_id : Z)
| H5Oopen (loc_id : Z) (name : string) (lapl_id : Z)
| H5Oclose (object_id : Z)
| H5Acreate (loc_id : Z) (attr_name : string)
            (type_id space_id acpl_id aapl_id : Z)
| H5Awrite (attr_id mem_type_id : Z) (buf : Z)
| H5Aclose (attr_id : Z).

(** A logged call: what was asked and what came back. *)
Record event : Type := Ev { ev_call : h5call; ev_ret : Z }.

(** ** The object and the process around it *)

(** [class H5OutputFile]: its only data member (line 16). *)
Record H5OutputFile : Type := { file_id : Z }.

(** [H5OutputFile()] (lines 30-32). *)
Definition constructor : H5OutputFile := {| file_id := -1 |}.

Section Adapter.

Context `{env : Hdf5Env}.
Context {L : Type}.
(** The library: the answer to a call in a library state, and the state
    after it. *)
Variable hdf5_call : h5call -> L -> Z * L.

(** What an operation can see and change: the object, the library, the
    log of calls and the lines written to [std::cerr]. *)
Record process : Type := Process {
  self : H5OutputFile;
  hdf5 : L;
  calls : list event;
  cerr : list string
}.

(** How running an operation ends: it returns to its caller; or the
    process is terminated by [abort()], after [MPI_Abort] when
    [mpi_abort] is set; or the operation read outside an array, which
    C++ leaves undefined. *)
Inductive outcome (A : Type) : Type :=
| Returns (a : A) (p : process)
| Aborts (mpi_abort : bool) (p : process)
| Undefined.
Arguments Returns {A} a p.
Arguments Aborts {A} mpi_abort p.
Arguments Undefined {A}.

Definition M (A : Type) : Type := process -> outcome A.

Definition ret {A} (a : A) : M A := fun p => Returns a p.

Definition bind {A B} (m : M A) (k : A -> M B) : M B :=
  fun p =>
    match m p with
    | Returns a p' => k a p'
    | Aborts b p' => Aborts b p'
    | Undefined => Undefined
    end.

Global Instance M_ret : MRet M := @ret.
Global Instance M_bind : MBind M := fun A B k m => bind m k.

(** [if (c) stmt;] for a statement without a value. *)
Definition when (c : bool) (m : M unit) : M unit :=
  if c then m else ret tt.

(** Reading and assigning the member [file_id]. *)
Definition get_file_id : M Z := fun p => Returns (file_id (self p)) p.

Definition set_file_id (v : Z) : M unit :=
  fun p => Returns tt (Process {| file_id := v |} (hdf5 p) (calls p) (cerr p)).

(** A library call: the library answers and moves on, the call is logged. *)
Definition lib (c : h5call) : M Z :=
  fun p =>
    let '(r, l) := hdf5_call c (hdf5 p) in
    Returns r (Process (self p) l (calls p ++ [Ev c r]) (cerr p)).

(** [a[i]] on an array of which [a] lists the elements. *)
Definition read (a : list Z) (i : Z) : M Z :=
  fun p =>
    match a !! Z.to_nat i with
    | Some v => Returns v p
    | None => Undefined
    end.

(** [for(int i=0; i<rank; i+=1) body], the loop state passed along. *)
Fixpoint for_from {S : Type} (n : nat) (i : Z) (body : Z -> S -> M S) (s : S)
  : M S :=
  match n with
  | O => ret s
  | S n' => s' ← body i s; for_from n' (i + 1) body s'
  end.

Definition for_i {S : Type} (rank : Z) (body : Z -> S -> M S) (s : S) : M S :=
  for_from (Z.to_nat rank) 0 body s.

(** ** The methods *)

(** [io_error] (lines 19-25): the message goes to [std::cerr], then
    [MPI_Abort] under [USEMPI], then [abort()].  It never returns. *)
Definition io_error (message : string) : M unit :=
  fun p => Aborts USEMPI (Process (self p) (hdf5 p) (calls p) (cerr p ++ [message])).

(** [create] (lines 35-40). *)
Definition create (filename : string) : M unit :=
  fid ← get_file_id;
  when (0 <=? fid) (io_error "Attempted to create file when already open!");;
  r ← lib (H5Fcreate (c_str filename) H5F_ACC_TRUNC H5P_DEFAULT H5P_DEFAULT);
  set_file_id r;;
  fid ← get_file_id;
  when (fid <? 0) (io_error ("Failed to create output file: " +:+ filename)).

(** [close] (lines 43-48). *)
Definition close : M unit :=
  fid ← get_file_id;
  when (fid <? 0) (io_error "Attempted to close file which is not open!");;
  fid ← get_file_id;
  _ ← lib (H5Fclose fid);
  set_file_id (-1).

(** [~H5OutputFile] (lines 51-55). *)
Definition destructor : M unit :=
  fid ← get_file_id;
  if 0 <=? fid then close else ret tt.

(** [hdf5_type] (lines 58-65): the identifier each overload returns.  The
    overload is chosen by the static type of the argument ([resolve]),
    whose value is not used. *)
Definition hdf5_type (T : ctype) : Z :=
  match T with
  | c_float => H5T_NATIVE_FLOAT
  | c_double => H5T_NATIVE_DOUBLE
  | c_int => H5T_NATIVE_INT
  | c_long => H5T_NATIVE_LONG
  | c_long_long => H5T_NATIVE_LLONG
  | c_unsigned_int => H5T_NATIVE_UINT
  | c_unsigned_long => H5T_NATIVE_ULONG
  | c_unsigned_long_long => H5T_NATIVE_ULLONG
  end.

(** The loop of lines 95-97. *)
Definition scan_nonzero (rank : Z) (dims : list Z) : M Z :=
  for_i rank
    (fun i nonzero_size =>
       d ← read dims i; ret (if d =? 0 then 0 else nonzero_size))
    1.

(** The loop of lines 100-102. *)
Definition scan_large (rank : Z) (dims : list Z) : M Z :=
  for_i rank
    (fun i large_dataset =>
       d ← read dims i; ret (if CHUNK_SIZE <? d then 1 else large_dataset))
    0.

(** Lines 108-110: [new hsize_t[rank]], every element assigned by the loop
    (the fresh array is shown holding zeros; its release at line 114
    leaves no trace here). *)
Definition fill_chunks (rank : Z) (dims : list Z) : M (list Z) :=
  for_i rank
    (fun i chunks =>
       d ← read dims i;
       ret (<[Z.to_nat i := Z.min CHUNK_SIZE d]> chunks))
    (replicate (Z.to_nat rank) 0).

(** [write_dataset_nd<T>] (lines 81-131), at the overload [T] that
    [hdf5_type(dummy)] selects for the element type (lines 85-86).  [data]
    lists the elements of the buffer; a caller that omits [filetype_id]
    passes [-1]; the library is given [name.c_str()]. *)
Definition write_dataset_nd (T : ctype) (name : string) (rank : Z)
    (dims : list Z) (data : list Z) (filetype_id : Z) : M unit :=
  let memtype_id := hdf5_type T in
  let filetype_id := if filetype_id <? 0 then memtype_id else filetype_id in
  dspace_id ← lib (H5Screate_simple rank dims);
  nonzero_size ← scan_nonzero rank dims;
  large_dataset ← scan_large rank dims;
  prop_id ← lib (H5Pcreate H5P_DATASET_CREATE);
  (if negb (nonzero_size =? 0) && negb (large_dataset =? 0) then
     chunks ← fill_chunks rank dims;
     _ ← lib (H5Pset_layout prop_id H5D_CHUNKED);
     _ ← lib (H5Pset_chunk prop_id rank chunks);
     _ ← lib (H5Pset_deflate prop_id DEFLATE);
     ret tt
   else ret tt);;
  fid ← get_file_id;
  dset_id ← lib (H5Dcreate fid (c_str name) filetype_id dspace_id
                            H5P_DEFAULT H5P_DEFAULT H5P_DEFAULT);
  when (dset_id <? 0) (io_error ("Failed to create dataset: " +:+ name));;
  r ← lib (H5Dwrite dset_id memtype_id dspace_id H5S_ALL H5P_DEFAULT data);
  when (r <? 0) (io_error ("Failed to write dataset: " +:+ name));;
  _ ← lib (H5Sclose dspace_id);
  _ ← lib (H5Dclose dset_id);
  _ ← lib (H5Pclose prop_id);
  ret tt.

(** The default of the last parameter of both dataset writers. *)
Definition default_filetype_id : Z := -1.

(** [write_dataset<T>] (lines 70-76). *)
Definition write_dataset (T : ctype) (name : string) (len : Z)
    (data : list Z) (filetype_id : Z) : M unit :=
  let rank := 1 in
  let dims := [len] in
  write_dataset_nd T name rank dims data filetype_id.

(** [write_attribute<T>] (lines 133-157), at the overload [T] that
    [hdf5_type(data)] selects for the type of the value (line 136).
    The source declares the handle
    returned by [H5Oopen] under the name of the string parameter
    [parent]; here the handle is [parent_id], [parent.c_str()] and the
    [+parent] of the two messages are the string (the only reading at
    which they are well typed), and [H5Oclose] takes the handle. *)
Definition write_attribute (T : ctype) (parent name : string) (data : Z)
  : M unit :=
  let dtype_id := hdf5_type T in
  fid ← get_file_id;
  parent_id ← lib (H5Oopen fid (c_str parent) H5P_DEFAULT);
  when (parent_id <? 0)
       (io_error ("Unable to open object to write attribute: " +:+ name));;
  dspace_id ← lib (H5Screate H5S_SCALAR);
  fid ← get_file_id;
  attr_id ← lib (H5Acreate fid (c_str name) dtype_id dspace_id H5P_DEFAULT
                   H5P_DEFAULT);
  when (attr_id <? 0)
       (io_error ("Unable to create attribute " +:+ name +:+ " on object " +:+ parent));;
  r ← lib (H5Awrite attr_id dtype_id data);
  when (r <? 0)
       (io_error ("Unable to write attribute " +:+ name +:+ " on object " +:+ parent));;
  _ ← lib (H5Aclose attr_id);
  _ ← lib (H5Sclose dspace_id);
  _ ← lib (H5Oclose parent_id);
  ret tt.

(** ** Clients *)

(** A client of an instance is a sequence of public member calls between
    the construction and the destruction of the instance. *)
Inductive method : Type :=
| Create (filename : string)
| Close
| WriteDataset (T : ctype) (name : string) (len : Z) (data : list Z)
               (filetype_id : Z)
| WriteDatasetNd (T : ctype) (name : string) (rank : Z) (dims : list Z)
                 (data : list Z) (filetype_id : Z)
| WriteAttribute (T : ctype) (parent name : string) (data : Z).

Definition invoke (m : method) : M unit :=
  match m with
  | Create filename => create filename
  | Close => close
  | WriteDataset T name len data ft => write_dataset T name len data ft
  | WriteDatasetNd T name rank dims data ft =>
      write_dataset_nd T name rank dims data ft
  | WriteAttribute T parent name data => write_attribute T parent name data
  end.

Fixpoint invoke_all (ms : list method) : M unit :=
  match ms with
  | [] => ret tt
  | m :: ms' => invoke m;; invoke_all ms'
  end.

(** The process in which an instance has just been constructed. *)
Definition fresh (l : L) : process := Process constructor l [] [].

(** The life of an instance: the client's calls, then the destructor. *)
Definition lifetime (ms : list method) : M unit :=
  invoke_all ms;; destructor.

(** The arrays a method indexes hold what it reads: the extents array of
    [write_dataset_nd] has [rank] elements. *)
Definition well_formed (m : method) : Prop :=
  match m with
  | WriteDatasetNd _ _ rank dims _ _ => rank = Z.of_nat (length dims)
  | _ => True
  end.

End Adapter.

Arguments process : clear implicits.
Arguments outcome : clear implicits.
Arguments M : clear implicits.
Arguments Process {L} self hdf5 calls cerr.
Arguments Returns {L A} a p.
Arguments Aborts {L A} mpi_abort p.
Arguments Undefined {L A}.

(** ** Predicates on logged calls *)

(** The calls whose result the header tests ([if(... < 0) io_error(...)]):
    lines 39, 120, 123, 140, 147 and 150. *)
Definition checked (c : h5call) : bool :=
  match c with
  | H5Fcreate _ _ _ _ | H5Dcreate _ _ _ _ _ _ _ | H5Dwrite _ _ _ _ _ _
  | H5Oopen _ _ _ | H5Acreate _ _ _ _ _ _ | H5Awrite _ _ _ => true
  | _ => false
  end.

(** The calls that obtain or release a file handle. *)
Definition is_file_call (c : h5call) : bool :=
  match c with
  | H5Fcreate _ _ _ _ | H5Fclose _ => true
  | _ => false
  end.

Definition file_calls (es : list event) : list event :=
  filter (fun e => is_file_call (ev_call e) = true) es.

(** A log of file calls in which every handle obtained is released once,
    before the next one is obtained. *)
Inductive paired : list event -> Prop :=
| paired_nil : paired []
| paired_cons filename flags fcpl fapl h r es :
    0 <= h ->
    paired es ->
    paired (Ev (H5Fcreate filename flags fcpl fapl) h :: Ev (H5Fclose h) r :: es).

(** Whether the call sets a chunked layout, chunk extents or a compression
    filter on a property list. *)
Definition sets_chunking (c : h5call) : bool :=
  match c with
  | H5Pset_layout _ _ | H5Pset_chunk _ _ _ | H5Pset_deflate _ _ => true
  | _ => false
  end.

(** The dataset creation property list handed to a dataset creation. *)
Definition dcpl_of (c : h5call) : option Z :=
  match c with
  | H5Dcreate _ _ _ _ _ dcpl_id _ => Some dcpl_id
  | _ => None
  end.

(** The object an attribute creation attaches the attribute to. *)
Definition attr_loc_of (c : h5call) : option Z :=
  match c with
  | H5Acreate loc_id _ _ _ _ _ => Some loc_id
  | _ => None
  end.

(** ** Messages *)

Fixpoint is_prefix (s t : string) : bool :=
  match s, t with
  | EmptyString, _ => true
  | String a s', String b t' => bool_decide (a = b) && is_prefix s' t'
  | String _ _, EmptyString => false
  end.

(** Whether [s] occurs in [t]. *)
Fixpoint occurs_in (s t : string) : bool :=
  is_prefix s t ||
  match t with
  | EmptyString => false
  | String _ t' => occurs_in s t'
  end.

(** The two messages for a misuse of the handle (lines 37 and 45). *)
Definition misuse_messages : list string :=
  ["Attempted to create file when already open!";
   "Attempted to close file which is not open!"].

(** ** A model of the library *)

(** A small executable library to run the adapter against: handles are
    fresh integers, a file holds datasets and attributes by name, and a
    dataset keeps the creation properties it was created with.  The
    theorems on the adapter hold for every library; this one serves the
    concrete runs. *)
Module Hdf5Model.

Definition H5D_CONTIGUOUS : Z := 1.

Global Instance env : Hdf5Env := {|
  USEMPI := false;
  H5F_ACC_TRUNC := 2;
  H5P_DEFAULT := 0;
  H5P_DATASET_CREATE := 10;
  H5D_CHUNKED := 2;
  H5S_ALL := 0;
  H5S_SCALAR := 0;
  H5T_NATIVE_FLOAT := 20;
  H5T_NATIVE_DOUBLE := 21;
  H5T_NATIVE_INT := 22;
  H5T_NATIVE_LONG := 23;
  H5T_NATIVE_LLONG := 24;
  H5T_NATIVE_UINT := 25;
  H5T_NATIVE_ULONG := 26;
  H5T_NATIVE_ULLONG := 27
|}.

(** Creation properties of a dataset. *)
Record dcpl : Type := Dcpl {
  layout : Z;
  chunk : list Z;
  deflate : option Z
}.

Definition default_dcpl : dcpl := Dcpl H5D_CONTIGUOUS [] None.

(** What an open handle stands for. *)
Inductive handle : Type :=
| HFile (filename : string)
| HSpace (extent : option (list Z))
| HPlist (props : dcpl)
| HObject (path : string)
| HAttr (owner name : string).

Record dataset : Type := Dataset {
  ds_type : Z;
  ds_extent : list Z;
  ds_props : dcpl;
  ds_data : option (Z * list Z)
}.

Record attribute : Type := Attribute {
  at_owner : string;
  at_name : string;
  at_type : Z;
  at_value : option Z
}.

Record state : Type := State {
  next_id : Z;
  handles : gmap Z handle;
  datasets : gmap string dataset;
  attributes : list attribute
}.

Definition empty : state := State 100 ∅ ∅ [].

Definition fail (s : state) : Z * state := (-1, s).

Definition open (h : handle) (s : state) : Z * state :=
  (next_id s,
   State (next_id s + 1) (<[next_id s := h]> (handles s)) (datasets s)
         (attributes s)).

Definition release (id : Z) (s : state) : Z * state :=
  (0, State (next_id s) (delete id (handles s)) (datasets s) (attributes s)).

Definition set_props (id : Z) (f : dcpl -> dcpl) (s : state) : Z * state :=
  match handles s !! id with
  | Some (HPlist props) =>
      (0, State (next_id s) (<[id := HPlist (f props)]> (handles s))
                (datasets s) (attributes s))
  | _ => fail s
  end.

(** The creation properties a property-list argument denotes. *)
Definition props_of (id : Z) (s : state) : option dcpl :=
  if id =? H5P_DEFAULT then Some default_dcpl
  else match handles s !! id with
       | Some (HPlist props) => Some props
       | _ => None
       end.

(** The path of the object a location handle denotes. *)
Definition path_of (id : Z) (s : state) : option string :=
  match handles s !! id with
  | Some (HFile _) => Some "/"
  | Some (HObject path) => Some path
  | _ => None
  end.

Definition answer (c : h5call) (s : state) : Z * state :=
  match c with
  | H5Fcreate filename _ _ _ =>
      if bool_decide (filename = "") then fail s
      else open (HFile filename)
                (State (next_id s) (handles s) ∅ [])
  | H5Screate_simple rank dims =>
      if bool_decide (1 <= rank /\ rank = Z.of_nat (length dims))
      then open (HSpace (Some dims)) s else fail s
  | H5Screate type =>
      if type =? H5S_SCALAR then open (HSpace None) s else fail s
  | H5Pcreate _ => open (HPlist default_dcpl) s
  | H5Pset_layout id l =>
      set_props id (fun d => Dcpl l (chunk d) (deflate d)) s
  | H5Pset_chunk id _ dim =>
      set_props id (fun d => Dcpl H5D_CHUNKED dim (deflate d)) s
  | H5Pset_deflate id level =>
      set_props id (fun d => Dcpl (layout d) (chunk d) (Some level)) s
  | H5Dcreate loc name dtype space _ dcpl_id _ =>
      match path_of loc s, handles s !! space, props_of dcpl_id s,
            datasets s !! name with
      | Some _, Some (HSpace (Some dims)), Some props, None =>
          open (HObject name)
               (State (next_id s) (handles s)
                      (<[name := Dataset dtype dims props None]> (datasets s))
                      (attributes s))
      | _, _, _, _ => fail s
      end
  | H5Dwrite dset mem_type _ _ _ buf =>
      match handles s !! dset with
      | Some (HObject name) =>
          match datasets s !! name with
          | Some d =>
              (0, State (next_id s) (handles s)
                        (<[name := Dataset (ds_type d) (ds_extent d) (ds_props d)
                                           (Some (mem_type, buf))]> (datasets s))
                        (attributes s))
          | None => fail s
          end
      | _ => fail s
      end
  | H5Oopen loc name _ =>
      match path_of loc s with
      | Some _ =>
          if bool_decide (name = "/") || bool_decide (is_Some (datasets s !! name))
          then open (HObject name) s else fail s
      | None => fail s
      end
  | H5Acreate loc name type _ _ _ =>
      match path_of loc s with
      | Some owner =>
          open (HAttr owner name)
               (State (next_id s) (handles s) (datasets s)
                      (attributes s ++ [Attribute owner name type None]))
      | None => fail s
      end
  | H5Awrite attr type buf =>
      match handles s !! attr with
      | Some (HAttr owner name) =>
          (0, State (next_id s) (handles s) (datasets s)
                    (map (fun a =>
                            if bool_decide (at_owner a = owner /\ at_name a = name)
                            then Attribute owner name (at_type a) (Some buf)
                            else a)
                         (attributes s)))
      | _ => fail s
      end
  | H5Fclose id | H5Sclose id | H5Pclose id | H5Dclose id | H5Oclose id
  | H5Aclose id =>
      match handles s !! id with
      | Some _ => release id s
      | None => fail s
      end
  end.

(** The same library on a medium that fails when a file is closed. *)
Definition answer_failing_close (c : h5call) (s : state) : Z * state :=
  match c with
  | H5Fclose _ => fail s
  | _ => answer c s
  end.

(** The owners of the attributes called [name]. *)
Definition owners_of (name : string) (s : state) : list string :=
  at_owner <$> filter (fun a => at_name a = name) (attributes s).

End Hdf5Model.

(** ** Concrete processes *)

(** The model's process after [create("out.h5")] on a fresh instance. *)
Definition opened_process : process Hdf5Model.state :=
  Process {| file_id := 100 |}
    (Hdf5Model.State 101 {[100 := Hdf5Model.HFile "out.h5"]} ∅ [])
    [Ev (H5Fcreate "out.h5" 2 0 0) 100] [].

(** What a run left in the file: the creation properties of a dataset and
    the owners of the attributes of a name. *)
Definition props_after {A : Type} (o : outcome Hdf5Model.state A)
    (name : string) : option Hdf5Model.dcpl :=
  match o with
  | Returns _ p => Hdf5Model.ds_props <$> Hdf5Model.datasets (hdf5 p) !! name
  | _ => None
  end.

Definition owners_after {A : Type} (o : outcome Hdf5Model.state A)
    (name : string) : option (list string) :=
  match o with
  | Returns _ p => Some (Hdf5Model.owners_of name (hdf5 p))
  | _ => None
  end.

(** The calls a run that returned has logged. *)
Definition calls_after {L A : Type} (o : outcome L A) : option (list event) :=
  match o with
  | Returns _ p => Some (calls p)
  | _ => None
  end.

(** ** What the loops compute *)

(** A loop over the indices of [ds] from [i] on, as a fold. *)
Fixpoint fold_indexed {S : Type} (f : Z -> Z -> S -> S) (i : Z) (ds : list Z)
    (s : S) : S :=
  match ds with
  | [] => s
  | d :: ds' => fold_indexed f (i + 1) ds' (f i d s)
  end.

(** The flags of lines 95-102 and the array of lines 108-110, as functions
    of the extents. *)
Definition nonzero_size_of (dims : list Z) : Z :=
  if bool_decide (0 ∈ dims) then 0 else 1.

Definition large_dataset_of (dims : list Z) : Z :=
  if bool_decide (Exists (fun d => CHUNK_SIZE < d) dims) then 1 else 0.

Definition chunks_of (dims : list Z) : list Z :=
  Z.min CHUNK_SIZE <$> dims.

(** The test of line 106, as a function of the extents. *)
Definition chunk_wanted (dims : list Z) : bool :=
  negb (nonzero_size_of dims =? 0) && negb (large_dataset_of dims =? 0).

(** ** The calls each writer makes *)

(** The calls [write_dataset_nd] makes on an instance holding [fid], for
    elements of memory type [mem]. *)
Definition nd_call `{Hdf5Env} (fid mem : Z) (c : h5call) : bool :=
  match c with
  | H5Screate_simple _ _ | H5Pcreate _ | H5Pset_layout _ _
  | H5Pset_chunk _ _ _ | H5Pset_deflate _ _
  | H5Sclose _ | H5Dclose _ | H5Pclose _ => true
  | H5Dcreate loc _ _ _ lcpl dcpl dapl =>
      bool_decide (loc = fid /\ lcpl = H5P_DEFAULT /\ dcpl = H5P_DEFAULT /\
                   dapl = H5P_DEFAULT)
  | H5Dwrite _ mem_type _ _ _ _ => bool_decide (mem_type = mem)
  | _ => false
  end.

(** The calls [write_attribute] makes on an instance holding [fid], for a
    value of memory type [mem]. *)
Definition attr_call (fid mem : Z) (c : h5call) : bool :=
  match c with
  | H5Oopen loc _ _ => bool_decide (loc = fid)
  | H5Acreate loc _ type _ _ _ => bool_decide (loc = fid /\ type = mem)
  | H5Awrite _ mem_type _ => bool_decide (mem_type = mem)
  | H5Screate _ | H5Aclose _ | H5Sclose _ | H5Oclose _ => true
  | _ => false
  end.

(** What a failure message of a method is expected to name: the file, the
    dataset or the attribute the call is about. *)
Definition subject (m : method) : option string :=
  match m with
  | Create filename => Some filename
  | Close => None
  | WriteDataset _ name _ _ _ => Some name
  | WriteDatasetNd _ name _ _ _ _ => Some name
  | WriteAttribute _ _ name _ => Some name
  end.

(** The state of the handle against the log: either no file is open and
    the file calls so far are paired, or the handle held is the result of
    the last file call, a creation, and the calls before it are paired. *)
Definition handle_inv {L : Type} (p : process L) : Prop :=
  (file_id (self p) = -1 /\ paired (file_calls (calls p))) \/
  (0 <= file_id (self p) /\
   exists es filename flags fcpl fapl,
     file_calls (calls p)
     = es ++ [Ev (H5Fcreate filename flags fcpl fapl) (file_id (self p))] /\
     paired es).

(** A call that neither sets chunking or compression on a property list
    nor creates a dataset with other than the default creation properties. *)
Definition plain_call `{Hdf5Env} (c : h5call) : bool :=
  negb (sets_chunking c) &&
  match dcpl_of c with
  | Some dcpl_id => bool_decide (dcpl_id = H5P_DEFAULT)
  | None => true
  end.


(** What [write_dataset_nd] has asked of the library when it comes to
    create the dataset of extents [dims]: with the test of line 106
    passed, a property list [prop] with chunked layout, the chunks of
    lines 108-110 and the deflate level of line 10; otherwise no chunking
    or compression on any property list. *)
Definition prepared `{Hdf5Env} (dims : list Z) (new : list event) : Prop :=
  if chunk_wanted dims then
    exists dspace prop r1 r2 r3 rest,
      new = Ev (H5Screate_simple (Z.of_nat (length dims)) dims) dspace
            :: Ev (H5Pcreate H5P_DATASET_CREATE) prop
            :: Ev (H5Pset_layout prop H5D_CHUNKED) r1
            :: Ev (H5Pset_chunk prop (Z.of_nat (length dims)) (chunks_of dims)) r2
            :: Ev (H5Pset_deflate prop DEFLATE) r3
            :: rest /\
      Forall (fun e => sets_chunking (ev_call e) = false) rest
  else Forall (fun e => sets_chunking (ev_call e) = false) new.

(** Every tested call of the log succeeded. *)
Definition checks_passed (es : list event) : Prop :=
  Forall (fun e => checked (ev_call e) = true -> 0 <= ev_ret e) es.

(** [p'] comes from [p] by calls that satisfy [ok]; the object and
    [std::cerr] are as they were and every tested call succeeded. *)
Definition returned {L : Type} (ok : h5call -> bool) (p p' : process L) : Prop :=
  self p' = self p /\ cerr p' = cerr p /\
  exists new, calls p' = calls p ++ new /\
              Forall (fun e => ok (ev_call e) = true) new /\
              checks_passed new.

(** [p'] comes from [p] by calls that satisfy [ok] and one line on
    [std::cerr], taken from [msgs]; the object is as it was. *)
Definition aborted `{Hdf5Env} {L : Type} (ok : h5call -> bool)
    (msgs : list string) (p : process L) (b : bool) (p' : process L) : Prop :=
  b = USEMPI /\ self p' = self p /\
  (exists new, calls p' = calls p ++ new /\
               Forall (fun e => ok (ev_call e) = true) new) /\
  exists msg, msg ∈ msgs /\ cerr p' = cerr p ++ [msg].

(** The line each tested call leaves on [std::cerr] when it fails (lines
    39, 120, 124, 140, 147 and 151), by the method that made the call. *)
Definition failure_message (m : method) (c : h5call) : option string :=
  match m, c with
  | Create filename, H5Fcreate _ _ _ _ =>
      Some ("Failed to create output file: " +:+ filename)
  | WriteDataset _ name _ _ _, H5Dcreate _ _ _ _ _ _ _ =>
      Some ("Failed to create dataset: " +:+ name)
  | WriteDatasetNd _ name _ _ _ _, H5Dcreate _ _ _ _ _ _ _ =>
      Some ("Failed to create dataset: " +:+ name)
  | WriteDataset _ name _ _ _, H5Dwrite _ _ _ _ _ _ =>
      Some ("Failed to write dataset: " +:+ name)
  | WriteDatasetNd _ name _ _ _ _, H5Dwrite _ _ _ _ _ _ =>
      Some ("Failed to write dataset: " +:+ name)
  | WriteAttribute _ _ name _, H5Oopen _ _ _ =>
      Some ("Unable to open object to write attribute: " +:+ name)
  | WriteAttribute _ parent name _, H5Acreate _ _ _ _ _ _ =>
      Some ("Unable to create attribute " +:+ name +:+ " on object " +:+ parent)
  | WriteAttribute _ parent name _, H5Awrite _ _ _ =>
      Some ("Unable to write attribute " +:+ name +:+ " on object " +:+ parent)
  | _, _ => None
  end.

(** What a method that returned is expected to have left: nothing
    printed and every tested call a success. *)
Definition on_return {L : Type} (p : process L) (_ : unit) (p' : process L)
  : Prop :=
  cerr p' = cerr p /\
  exists new, calls p' = calls p ++ new /\ checks_passed new.

(** What a method that terminated the process is expected to have left:
    one line printed.  Either no call was made, the method is [create] on
    an instance with a handle or [close] on one without, and the line is
    the fixed text of that misuse; or the last call made is a tested call
    that failed, and the line is the message of that call, which names
    the subject of the method. *)
Definition on_abort `{Hdf5Env} {L : Type} (m : method) (p : process L)
    (b : bool) (p' : process L) : Prop :=
  b = USEMPI /\
  exists new msg,
    calls p' = calls p ++ new /\
    cerr p' = cerr p ++ [msg] /\
    ((new = [] /\
      (((exists filename, m = Create filename) /\ 0 <= file_id (self p) /\
        msg = "Attempted to create file when already open!") \/
       (m = Close /\ file_id (self p) < 0 /\
        msg = "Attempted to close file which is not open!")))
     \/
     exists pre e n,
       new = pre ++ [e] /\
       checked (ev_call e) = true /\ ev_ret e < 0 /\
       failure_message m (ev_call e) = Some msg /\
       subject m = Some n /\ occurs_in n msg = true).

(** ** Handles obtained and released *)

(** The kinds of handle the header deals with. *)
Inductive hkind : Type :=
| KFile | KSpace | KPlist | KDataset | KObject | KAttr.

(** The handle a logged call obtained, with its kind. *)
Definition obtains (e : event) : option (hkind * Z) :=
  match ev_call e with
  | H5Fcreate _ _ _ _ => Some (KFile, ev_ret e)
  | H5Screate_simple _ _ | H5Screate _ => Some (KSpace, ev_ret e)
  | H5Pcreate _ => Some (KPlist, ev_ret e)
  | H5Dcreate _ _ _ _ _ _ _ => Some (KDataset, ev_ret e)
  | H5Oopen _ _ _ => Some (KObject, ev_ret e)
  | H5Acreate _ _ _ _ _ _ => Some (KAttr, ev_ret e)
  | _ => None
  end.

(** The handle a logged call released, with the kind its function is for. *)
Definition releases (e : event) : option (hkind * Z) :=
  match ev_call e with
  | H5Fclose id => Some (KFile, id)
  | H5Sclose id => Some (KSpace, id)
  | H5Pclose id => Some (KPlist, id)
  | H5Dclose id => Some (KDataset, id)
  | H5Oclose id => Some (KObject, id)
  | H5Aclose id => Some (KAttr, id)
  | _ => None
  end.

Definition obtained (es : list event) : list (hkind * Z) := omap obtains es.
Definition released (es : list event) : list (hkind * Z) := omap releases es.

(** The handles the instance owes a release for. *)
Definition held (o : H5OutputFile) : list (hkind * Z) :=
  if 0 <=? file_id o then [(KFile, file_id o)] else [].

(** What the log owes: everything obtained is released or held, and the
    member is -1 or a handle. *)
Definition settled {L : Type} (p : process L) : Prop :=
  (file_id (self p) = -1 \/ 0 <= file_id (self p)) /\
  obtained (calls p) ≡ₚ released (calls p) ++ held (self p).

(** ** The calls of a writer, in order *)

(** The calls that create a dataset or write to one, and the calls that
    create an attribute or write to one. *)
Definition is_dataset_call (c : h5call) : bool :=
  match c with
  | H5Dcreate _ _ _ _ _ _ _ | H5Dwrite _ _ _ _ _ _ => true
  | _ => false
  end.

Definition is_attribute_call (c : h5call) : bool :=
  match c with
  | H5Acreate _ _ _ _ _ _ | H5Awrite _ _ _ => true
  | _ => false
  end.

Definition dataset_calls (es : list event) : list event :=
  filter (fun e => is_dataset_call (ev_call e) = true) es.

Definition attribute_calls (es : list event) : list event :=
  filter (fun e => is_attribute_call (ev_call e) = true) es.

(** The chunk extents a call sets, with the rank it announces. *)
Definition chunk_of (c : h5call) : option (Z * list Z) :=
  match c with
  | H5Pset_chunk _ ndims dim => Some (ndims, dim)
  | _ => None
  end.

(** The location a call resolves a name in. *)
Definition loc_of (c : h5call) : option Z :=
  match c with
  | H5Dcreate loc_id _ _ _ _ _ _ | H5Oopen loc_id _ _
  | H5Acreate loc_id _ _ _ _ _ => Some loc_id
  | _ => None
  end.

(** The calls between the creation of the property list and the creation
    of the dataset: none, or the three that set chunking on [prop]. *)
Definition nd_mid `{Hdf5Env} (prop rank : Z) (mid : list event) : Prop :=
  mid = [] \/
  exists chunks r1 r2 r3,
    mid = [Ev (H5Pset_layout prop H5D_CHUNKED) r1;
           Ev (H5Pset_chunk prop rank chunks) r2;
           Ev (H5Pset_deflate prop DEFLATE) r3].

(** The calls of [write_dataset_nd] up to the creation of the dataset. *)
Definition nd_start `{Hdf5Env} (fid : Z) (T : ctype) (name : string)
    (rank : Z) (dims : list Z) (ft dspace prop : Z) (mid : list event)
    (dset : Z) : list event :=
  Ev (H5Screate_simple rank dims) dspace
  :: Ev (H5Pcreate H5P_DATASET_CREATE) prop
  :: mid ++
  [Ev (H5Dcreate fid (c_str name) (if ft <? 0 then hdf5_type T else ft) dspace
         H5P_DEFAULT H5P_DEFAULT H5P_DEFAULT) dset].

(** The calls of [write_dataset_nd] after the creation of the dataset, when
    it returns. *)
Definition nd_finish `{Hdf5Env} (T : ctype) (data : list Z)
    (dspace prop dset r r1 r2 r3 : Z) : list event :=
  [Ev (H5Dwrite dset (hdf5_type T) dspace H5S_ALL H5P_DEFAULT data) r;
   Ev (H5Sclose dspace) r1; Ev (H5Dclose dset) r2; Ev (H5Pclose prop) r3].

(** How a call of [write_dataset_nd] that returned has run. *)
Definition nd_returned `{Hdf5Env} {L : Type} (T : ctype) (name : string)
    (rank : Z) (dims data : list Z) (ft : Z) (p p' : process L) : Prop :=
  self p' = self p /\ cerr p' = cerr p /\
  exists dspace prop mid dset r r1 r2 r3,
    nd_mid prop rank mid /\ 0 <= dset /\ 0 <= r /\
    calls p' = calls p ++
               nd_start (file_id (self p)) T name rank dims ft dspace prop mid dset
               ++ nd_finish T data dspace prop dset r r1 r2 r3.

(** How a call of [write_dataset_nd] that terminated the process has run:
    the creation of the dataset failed, or the write did. *)
Definition nd_aborted `{Hdf5Env} {L : Type} (T : ctype) (name : string)
    (rank : Z) (dims data : list Z) (ft : Z) (p : process L) (b : bool)
    (p' : process L) : Prop :=
  b = USEMPI /\ self p' = self p /\
  exists dspace prop mid dset,
    nd_mid prop rank mid /\
    ((dset < 0 /\
      calls p' = calls p ++
                 nd_start (file_id (self p)) T name rank dims ft dspace prop mid dset /\
      cerr p' = cerr p ++ ["Failed to create dataset: " +:+ name])
     \/
     (0 <= dset /\
      exists r,
        r < 0 /\
        calls p' = calls p ++
                   nd_start (file_id (self p)) T name rank dims ft dspace prop mid dset
                   ++ [Ev (H5Dwrite dset (hdf5_type T) dspace H5S_ALL H5P_DEFAULT
                             data) r] /\
        cerr p' = cerr p ++ ["Failed to write dataset: " +:+ name])).

(** The calls of [write_attribute] up to a given point. *)
Definition attr_opened `{Hdf5Env} (fid : Z) (parent : string) (par : Z)
  : list event :=
  [Ev (H5Oopen fid (c_str parent) H5P_DEFAULT) par].

Definition attr_created `{Hdf5Env} (fid : Z) (T : ctype) (parent name : string)
    (par dspace attr : Z) : list event :=
  attr_opened fid parent par ++
  [Ev (H5Screate H5S_SCALAR) dspace;
   Ev (H5Acreate fid (c_str name) (hdf5_type T) dspace H5P_DEFAULT H5P_DEFAULT)
      attr].

Definition attr_written `{Hdf5Env} (fid : Z) (T : ctype) (parent name : string)
    (data par dspace attr r : Z) : list event :=
  attr_created fid T parent name par dspace attr ++
  [Ev (H5Awrite attr (hdf5_type T) data) r].

(** How a call of [write_attribute] that returned has run. *)
Definition attr_returned `{Hdf5Env} {L : Type} (T : ctype)
    (parent name : string) (data : Z) (p p' : process L) : Prop :=
  self p' = self p /\ cerr p' = cerr p /\
  exists par dspace attr r r1 r2 r3,
    0 <= par /\ 0 <= attr /\ 0 <= r /\
    calls p' = calls p ++
               attr_written (file_id (self p)) T parent name data par dspace attr r
               ++ [Ev (H5Aclose attr) r1; Ev (H5Sclose dspace) r2;
                   Ev (H5Oclose par) r3].

(** How a call of [write_attribute] that terminated the process has run:
    the parent could not be opened, or the attribute not created, or the
    value not written. *)
Definition attr_aborted `{Hdf5Env} {L : Type} (T : ctype)
    (parent name : string) (data : Z) (p : process L) (b : bool)
    (p' : process L) : Prop :=
  b = USEMPI /\ self p' = self p /\
  exists par,
    (par < 0 /\
     calls p' = calls p ++ attr_opened (file_id (self p)) parent par /\
     cerr p' = cerr p ++ ["Unable to open object to write attribute: " +:+ name])
    \/
    (0 <= par /\
     exists dspace attr,
       (attr < 0 /\
        calls p' = calls p ++
                   attr_created (file_id (self p)) T parent name par dspace attr /\
        cerr p' = cerr p ++
                  ["Unable to create attribute " +:+ name +:+ " on object "
                   +:+ parent])
       \/
       (0 <= attr /\
        exists r,
          r < 0 /\
          calls p' = calls p ++
                     attr_written (file_id (self p)) T parent name data par dspace
                       attr r /\
          cerr p' = cerr p ++
                    ["Unable to write attribute " +:+ name +:+ " on object "
                     +:+ parent])).

(** How a termination came about: by a misuse of the handle before any
    call, or by the failure of the last call logged, which is a tested
    one, every tested call before it having succeeded. *)
Definition stopped {L : Type} (m : method) (p p' : process L) : Prop :=
  exists new,
    calls p' = calls p ++ new /\
    ((new = [] /\
      (((exists filename, m = Create filename) /\ 0 <= file_id (self p)) \/
       (m = Close /\ file_id (self p) < 0)))
     \/
     exists pre e,
       new = pre ++ [e] /\ checks_passed pre /\
       checked (ev_call e) = true /\ ev_ret e < 0).

(** ** Weakest preconditions *)

(** [wp m Q E U p]: run from [p], [m] returns into [Q], aborts into [E],
    and is undefined only if [U]. *)
Definition wp {L A : Type} (m : M L A) (Q : A -> process L -> Prop)
    (E : bool -> process L -> Prop) (U : Prop) (p : process L) : Prop :=
  match m p with
  | Returns a p' => Q a p'
  | Aborts b p' => E b p'
  | Undefined => U
  end.

(** * Properties *)

Section Properties.

Context `{env : Hdf5Env}.
Context {L : Type}.
Variable hdf5_call : h5call -> L -> Z * L.

Implicit Types (p : process L) (l : L).

(** ** The handle protocol *)

Lemma create_when_open p filename :
  0 <= file_id (self p) ->
  create hdf5_call filename p =
  Aborts USEMPI
    (Process (self p) (hdf5 p) (calls p)
       (cerr p ++ ["Attempted to create file when already open!"])).
Proof.
  intros Hopen. unfold create, mbind, M_bind, bind, get_file_id, when.
  destruct (Z.leb_spec 0 (file_id (self p))) as [_ | Hlt]; [reflexivity | lia].
Qed.

Lemma create_when_closed p filename h l :
  file_id (self p) < 0 ->
  hdf5_call (H5Fcreate (c_str filename) H5F_ACC_TRUNC H5P_DEFAULT H5P_DEFAULT) (hdf5 p)
  = (h, l) ->
  create hdf5_call filename p =
  let p' :=
    Process {| file_id := h |} l
      (calls p ++ [Ev (H5Fcreate (c_str filename) H5F_ACC_TRUNC H5P_DEFAULT H5P_DEFAULT) h])
      (cerr p) in
  if h <? 0
  then Aborts USEMPI
         (Process (self p') (hdf5 p') (calls p')
            (cerr p ++ ["Failed to create output file: " +:+ filename]))
  else Returns tt p'.
Proof.
  intros Hclosed Hlib.
  unfold create, mbind, M_bind, bind, get_file_id, when, lib, set_file_id.
  destruct (Z.leb_spec 0 (file_id (self p))) as [Hle | _]; [lia |].
  cbn. rewrite Hlib. cbn. destruct (h <? 0); reflexivity.
Qed.

Lemma close_when_closed p :
  file_id (self p) < 0 ->
  close hdf5_call p =
  Aborts USEMPI
    (Process (self p) (hdf5 p) (calls p)
       (cerr p ++ ["Attempted to close file which is not open!"])).
Proof.
  intros Hclosed. unfold close, mbind, M_bind, bind, get_file_id, when.
  destruct (Z.ltb_spec (file_id (self p)) 0) as [_ | Hge]; [reflexivity | lia].
Qed.

Lemma close_when_open p r l :
  0 <= file_id (self p) ->
  hdf5_call (H5Fclose (file_id (self p))) (hdf5 p) = (r, l) ->
  close hdf5_call p =
  Returns tt
    (Process {| file_id := -1 |} l
       (calls p ++ [Ev (H5Fclose (file_id (self p))) r]) (cerr p)).
Proof.
  intros Hopen Hlib.
  unfold close, mbind, M_bind, bind, get_file_id, when, lib, set_file_id.
  destruct (Z.ltb_spec (file_id (self p)) 0) as [Hlt | _]; [lia |].
  cbn. rewrite Hlib. reflexivity.
Qed.

(** ** The loops over the extents *)

Lemma read_cases (a : list Z) (i : Z) p :
  read a i p = Undefined \/ exists v, read a i p = Returns v p.
Proof. unfold read. destruct (a !! Z.to_nat i); eauto. Qed.

Lemma for_from_cases {S : Type} (f : Z -> Z -> S -> S) (dims : list Z) p :
  forall (n : nat) (i : Z) (s : S),
    let m := for_from n i (fun i s => d ← read dims i; ret (f i d s)) s in
    m p = Undefined \/ exists v, m p = Returns v p.
Proof.
  induction n as [| n IH]; intros i s; cbn.
  - right. eexists. reflexivity.
  - unfold mbind, M_bind, bind.
    destruct (read_cases dims i p) as [-> | [d ->]]; [by left |].
    cbn. apply IH.
Qed.

Lemma for_from_reads {S : Type} (f : Z -> Z -> S -> S) (dims : list Z) p :
  forall (ds pre post : list Z) (s : S),
    dims = pre ++ ds ++ post ->
    for_from (length ds) (Z.of_nat (length pre))
      (fun i s => d ← read dims i; ret (f i d s)) s p
    = Returns (fold_indexed f (Z.of_nat (length pre)) ds s) p.
Proof.
  induction ds as [| d ds IH]; intros pre post s Hdims; cbn.
  - reflexivity.
  - assert (Hd : dims !! length pre = Some d).
    { rewrite Hdims. by apply list_lookup_middle. }
    unfold mbind, M_bind, bind, read.
    rewrite Nat2Z.id, Hd. cbn.
    replace (Z.of_nat (length pre) + 1) with (Z.of_nat (length (pre ++ [d])))
      by (rewrite length_app; cbn; lia).
    apply (IH (pre ++ [d]) post). by rewrite <- app_assoc.
Qed.

Lemma for_i_cases {S : Type} (f : Z -> Z -> S -> S) (rank : Z) (dims : list Z)
    (s : S) p :
  let m := for_i rank (fun i s => d ← read dims i; ret (f i d s)) s in
  (m p = Undefined /\ rank <> Z.of_nat (length dims)) \/
  (exists v, m p = Returns v p /\
             (rank = Z.of_nat (length dims) -> v = fold_indexed f 0 dims s)).
Proof.
  cbn. unfold for_i.
  assert (Hwf : rank = Z.of_nat (length dims) ->
                for_from (Z.to_nat rank) 0
                  (fun i s => d ← read dims i; ret (f i d s)) s p
                = Returns (fold_indexed f 0 dims s) p).
  { intros ->. rewrite Nat2Z.id.
    apply (for_from_reads f dims p dims [] []). by rewrite app_nil_r. }
  destruct (for_from_cases f dims p (Z.to_nat rank) 0 s) as [Hu | [v Hv]].
  - left. split; [exact Hu |]. intros Hr. rewrite (Hwf Hr) in Hu. discriminate.
  - right. exists v. split; [exact Hv |]. intros Hr.
    rewrite (Hwf Hr) in Hv. congruence.
Qed.

Lemma fold_nonzero (ds : list Z) :
  forall i s,
    fold_indexed (fun _ d (nz : Z) => if d =? 0 then 0 else nz) i ds s
    = if bool_decide (0 ∈ ds) then 0 else s.
Proof.
  induction ds as [| d ds IH]; intros i s; simpl fold_indexed.
  - rewrite bool_decide_eq_false_2; [reflexivity |]. apply not_elem_of_nil.
  - rewrite IH. destruct (Z.eqb_spec d 0) as [-> | Hd].
    + rewrite (bool_decide_eq_true_2 (0 ∈ 0 :: ds)) by apply list_elem_of_here.
      by destruct (bool_decide (0 ∈ ds)).
    + rewrite (bool_decide_ext (0 ∈ d :: ds) (0 ∈ ds)); [reflexivity |].
      rewrite elem_of_cons. intuition congruence.
Qed.

Lemma fold_large (ds : list Z) :
  forall i s,
    fold_indexed (fun _ d (lg : Z) => if CHUNK_SIZE <? d then 1 else lg) i ds s
    = if bool_decide (Exists (fun d => CHUNK_SIZE < d) ds) then 1 else s.
Proof.
  induction ds as [| d ds IH]; intros i s; simpl fold_indexed.
  - rewrite bool_decide_eq_false_2; [reflexivity |]. intros H. by inversion H.
  - rewrite IH. destruct (Z.ltb_spec CHUNK_SIZE d) as [Hd | Hd].
    + rewrite (bool_decide_eq_true_2 (Exists _ (d :: ds)))
        by (apply Exists_cons; by left).
      by destruct (bool_decide (Exists _ ds)).
    + rewrite (bool_decide_ext (Exists (fun d => CHUNK_SIZE < d) (d :: ds))
                 (Exists (fun d => CHUNK_SIZE < d) ds)); [reflexivity |].
      rewrite Exists_cons. intuition lia.
Qed.

Lemma scan_nonzero_cases (rank : Z) (dims : list Z) p :
  (scan_nonzero rank dims p = Undefined /\ rank <> Z.of_nat (length dims)) \/
  (exists v, scan_nonzero rank dims p = Returns v p /\
             (rank = Z.of_nat (length dims) -> v = nonzero_size_of dims)).
Proof.
  destruct (for_i_cases (fun _ d (nz : Z) => if d =? 0 then 0 else nz)
              rank dims 1 p) as [H | [v [H Hv]]]; [by left |].
  right. exists v. split; [exact H |]. intros Hr.
  rewrite (Hv Hr). apply fold_nonzero.
Qed.

Lemma scan_large_cases (rank : Z) (dims : list Z) p :
  (scan_large rank dims p = Undefined /\ rank <> Z.of_nat (length dims)) \/
  (exists v, scan_large rank dims p = Returns v p /\
             (rank = Z.of_nat (length dims) -> v = large_dataset_of dims)).
Proof.
  destruct (for_i_cases (fun _ d (lg : Z) => if CHUNK_SIZE <? d then 1 else lg)
              rank dims 0 p) as [H | [v [H Hv]]]; [by left |].
  right. exists v. split; [exact H |]. intros Hr.
  rewrite (Hv Hr). apply fold_large.
Qed.

Lemma fold_fill (ds : list Z) :
  forall done : list Z,
    fold_indexed
      (fun i d (chunks : list Z) => <[Z.to_nat i := Z.min CHUNK_SIZE d]> chunks)
      (Z.of_nat (length done)) ds (done ++ replicate (length ds) 0)
    = done ++ chunks_of ds.
Proof.
  induction ds as [| d ds IH]; intros done; simpl fold_indexed.
  - reflexivity.
  - rewrite Nat2Z.id. cbn [length replicate].
    rewrite insert_app_r_alt, Nat.sub_diag by reflexivity. cbn [insert list_insert].
    replace (Z.of_nat (length done) + 1)
      with (Z.of_nat (length (done ++ [Z.min CHUNK_SIZE d])))
      by (rewrite length_app; cbn; lia).
    rewrite (cons_middle (Z.min CHUNK_SIZE d) done (replicate (length ds) 0)).
    rewrite app_assoc, IH, <- app_assoc. reflexivity.
Qed.

Lemma fill_chunks_cases (rank : Z) (dims : list Z) p :
  (fill_chunks rank dims p = Undefined /\ rank <> Z.of_nat (length dims)) \/
  (exists v, fill_chunks rank dims p = Returns v p /\
             (rank = Z.of_nat (length dims) -> v = chunks_of dims)).
Proof.
  destruct (for_i_cases
              (fun i d (chunks : list Z) =>
                 <[Z.to_nat i := Z.min CHUNK_SIZE d]> chunks)
              rank dims (replicate (Z.to_nat rank) 0) p)
    as [H | [v [H Hv]]]; [by left |].
  right. exists v. split; [exact H |]. intros Hr.
  rewrite (Hv Hr), Hr, Nat2Z.id. apply (fold_fill dims []).
Qed.

(** ** Rules for weakest preconditions *)

Section Rules.

Context {A : Type}.
Variables (Q : A -> process L -> Prop) (E : bool -> process L -> Prop)
          (U : Prop).

Lemma wp_ret (a : A) p : Q a p -> wp (ret a) Q E U p.
Proof. exact id. Qed.

Lemma wp_bind {B : Type} (m : M L B) (k : B -> M L A) p :
  wp m (fun b p' => wp (k b) Q E U p') E U p -> wp (m ≫= k) Q E U p.
Proof.
  unfold wp, mbind, M_bind, bind. destruct (m p); exact id.
Qed.

Lemma wp_if (c : bool) (m1 m2 : M L A) p :
  (c = true -> wp m1 Q E U p) -> (c = false -> wp m2 Q E U p) ->
  wp (if c then m1 else m2) Q E U p.
Proof. destruct c; auto. Qed.

End Rules.

Section UnitRules.

Variables (E : bool -> process L -> Prop) (U : Prop).

Lemma wp_lib (Q : Z -> process L -> Prop) (c : h5call) p :
  (forall r l, hdf5_call c (hdf5 p) = (r, l) ->
               Q r (Process (self p) l (calls p ++ [Ev c r]) (cerr p))) ->
  wp (lib hdf5_call c) Q E U p.
Proof.
  intros H. unfold wp, lib. destruct (hdf5_call c (hdf5 p)) as [r l] eqn:Hc.
  by apply H.
Qed.

Lemma wp_get_file_id (Q : Z -> process L -> Prop) p :
  Q (file_id (self p)) p -> wp get_file_id Q E U p.
Proof. exact id. Qed.

Lemma wp_set_file_id (Q : unit -> process L -> Prop) (v : Z) p :
  Q tt (Process {| file_id := v |} (hdf5 p) (calls p) (cerr p)) ->
  wp (set_file_id v) Q E U p.
Proof. exact id. Qed.

Lemma wp_io_error (Q : unit -> process L -> Prop) (message : string) p :
  E USEMPI (Process (self p) (hdf5 p) (calls p) (cerr p ++ [message])) ->
  wp (io_error message) Q E U p.
Proof. exact id. Qed.

Lemma wp_when (Q : unit -> process L -> Prop) (c : bool) (m : M L unit) p :
  (c = true -> wp m Q E U p) -> (c = false -> Q tt p) ->
  wp (when c m) Q E U p.
Proof.
  intros Ht Hf. destruct c; [apply Ht | apply Hf]; reflexivity.
Qed.

Lemma wp_scan_nonzero (Q : Z -> process L -> Prop) rank dims p :
  (rank <> Z.of_nat (length dims) -> U) ->
  (forall v, (rank = Z.of_nat (length dims) -> v = nonzero_size_of dims) ->
             Q v p) ->
  wp (scan_nonzero rank dims) Q E U p.
Proof.
  intros HU HQ. unfold wp.
  destruct (scan_nonzero_cases rank dims p) as [[-> H] | [v [-> H]]]; auto.
Qed.

Lemma wp_scan_large (Q : Z -> process L -> Prop) rank dims p :
  (rank <> Z.of_nat (length dims) -> U) ->
  (forall v, (rank = Z.of_nat (length dims) -> v = large_dataset_of dims) ->
             Q v p) ->
  wp (scan_large rank dims) Q E U p.
Proof.
  intros HU HQ. unfold wp.
  destruct (scan_large_cases rank dims p) as [[-> H] | [v [-> H]]]; auto.
Qed.

Lemma wp_fill_chunks (Q : list Z -> process L -> Prop) rank dims p :
  (rank <> Z.of_nat (length dims) -> U) ->
  (forall v, (rank = Z.of_nat (length dims) -> v = chunks_of dims) -> Q v p) ->
  wp (fill_chunks rank dims) Q E U p.
Proof.
  intros HU HQ. unfold wp.
  destruct (fill_chunks_cases rank dims p) as [[-> H] | [v [-> H]]]; auto.
Qed.

End UnitRules.

End Properties.

(** Running a method body symbolically: one rule per statement. *)
Ltac wp_step :=
  lazymatch goal with
  | |- wp (mbind _ _) _ _ _ _ => apply wp_bind
  | |- wp (ret _) _ _ _ _ => apply wp_ret
  | |- wp (lib _ _) _ _ _ _ => apply wp_lib; intros ? ? _
  | |- wp get_file_id _ _ _ _ => apply wp_get_file_id
  | |- wp (set_file_id _) _ _ _ _ => apply wp_set_file_id
  | |- wp (io_error _) _ _ _ _ => apply wp_io_error
  | |- wp (when _ _) _ _ _ _ => apply wp_when; intros ?
  | |- wp (scan_nonzero _ _) _ _ _ _ =>
      apply wp_scan_nonzero; [intros ? | intros ? ?]
  | |- wp (scan_large _ _) _ _ _ _ =>
      apply wp_scan_large; [intros ? | intros ? ?]
  | |- wp (fill_chunks _ _) _ _ _ _ =>
      apply wp_fill_chunks; [intros ? | intros ? ?]
  | |- wp (if _ then _ else _) _ _ _ _ => apply wp_if; intros ?
  end.

Ltac wp_run := repeat (wp_step; cbn [self hdf5 calls cerr file_id]).


(** Closing the leaves: the log is the old one followed by the new calls,
    and each new call is checked by [tac]. *)
Ltac log_split :=
  eexists; split; [rewrite <- ?app_assoc; reflexivity |].

Ltac each_event tac :=
  cbn [app]; repeat (apply List.Forall_cons; [tac |]); apply List.Forall_nil.

Ltac nonneg_results :=
  repeat match goal with
         | H : (_ <? 0) = false |- _ => apply Z.ltb_ge in H
         end.

Ltac call_ok :=
  cbn; first [reflexivity | apply bool_decide_eq_true_2; auto].

Ltac check_ok :=
  cbn; first [discriminate | intros _; assumption].

Ltac leaf_returned :=
  nonneg_results;
  split; [reflexivity | split; [reflexivity |]];
  log_split; split; [each_event call_ok | each_event check_ok].

Ltac leaf_aborted :=
  split; [reflexivity | split; [reflexivity | split]];
  [log_split; each_event call_ok
  | eexists; split; [| reflexivity]; set_solver].

Section Writers.

Context `{env : Hdf5Env}.
Context {L : Type}.
Variable hdf5_call : h5call -> L -> Z * L.

Implicit Types (p : process L) (l : L).

Lemma write_dataset_nd_runs T name rank dims data ft p :
  wp (write_dataset_nd hdf5_call T name rank dims data ft)
     (fun _ => returned (nd_call (file_id (self p)) (hdf5_type T)) p)
     (aborted (nd_call (file_id (self p)) (hdf5_type T))
        ["Failed to create dataset: " +:+ name;
         "Failed to write dataset: " +:+ name] p)
     (rank <> Z.of_nat (length dims)) p.
Proof.
  unfold write_dataset_nd. wp_run; try assumption.
  all: first [leaf_returned | leaf_aborted].
Qed.

Lemma write_attribute_runs T parent name data p :
  wp (write_attribute hdf5_call T parent name data)
     (fun _ => returned (attr_call (file_id (self p)) (hdf5_type T)) p)
     (aborted (attr_call (file_id (self p)) (hdf5_type T))
        ["Unable to open object to write attribute: " +:+ name;
         "Unable to create attribute " +:+ name +:+ " on object " +:+ parent;
         "Unable to write attribute " +:+ name +:+ " on object " +:+ parent] p)
     False p.
Proof.
  unfold write_attribute. wp_run.
  all: first [leaf_returned | leaf_aborted].
Qed.
End Writers.

(** * The handle: create, close and the writers *)

Section Handle.

Context `{env : Hdf5Env}.
Context {L : Type}.
Variable hdf5_call : h5call -> L -> Z * L.

Implicit Types (p : process L) (l : L).

(** C3.  [create] on an instance that holds a handle and [close] on one
    that holds none print their message and terminate the process: the
    outcome is [Aborts], not [Returns].  [create] on an instance that
    holds none asks the library for a file and, when the library gives a
    handle, returns with that handle stored; [close] on an instance that
    holds one hands it to [H5Fclose] and returns with the member reset to
    -1. *)
Theorem create_close_handle_protocol p filename :
  (0 <= file_id (self p) ->
   create hdf5_call filename p =
   Aborts USEMPI
     (Process (self p) (hdf5 p) (calls p)
        (cerr p ++ ["Attempted to create file when already open!"])))
  /\
  (file_id (self p) < 0 ->
   close hdf5_call p =
   Aborts USEMPI
     (Process (self p) (hdf5 p) (calls p)
        (cerr p ++ ["Attempted to close file which is not open!"])))
  /\
  (file_id (self p) < 0 ->
   forall h l,
     hdf5_call (H5Fcreate (c_str filename) H5F_ACC_TRUNC H5P_DEFAULT H5P_DEFAULT)
       (hdf5 p) = (h, l) ->
     0 <= h ->
     create hdf5_call filename p =
     Returns tt
       (Process {| file_id := h |} l
          (calls p ++
           [Ev (H5Fcreate (c_str filename) H5F_ACC_TRUNC H5P_DEFAULT H5P_DEFAULT) h])
          (cerr p)))
  /\
  (0 <= file_id (self p) ->
   forall r l,
     hdf5_call (H5Fclose (file_id (self p))) (hdf5 p) = (r, l) ->
     close hdf5_call p =
     Returns tt
       (Process {| file_id := -1 |} l
          (calls p ++ [Ev (H5Fclose (file_id (self p))) r]) (cerr p))).
Proof.
  split; [apply create_when_open |].
  split; [apply close_when_closed |].
  split.
  - intros Hclosed h l Hlib Hh.
    rewrite (create_when_closed hdf5_call p filename h l Hclosed Hlib).
    cbn. destruct (Z.ltb_spec h 0); [lia | reflexivity].
  - intros Hopen r l. by apply close_when_open.
Qed.

(** C9.  [close] on an instance that holds a handle returns with the
    member reset to -1 and nothing printed, whatever [H5Fclose]
    answered: the answer [r] is logged and never looked at, so a
    negative one passes unnoticed. *)
Theorem close_ignores_H5Fclose_result p r l :
  0 <= file_id (self p) ->
  hdf5_call (H5Fclose (file_id (self p))) (hdf5 p) = (r, l) ->
  close hdf5_call p =
  Returns tt
    (Process {| file_id := -1 |} l
       (calls p ++ [Ev (H5Fclose (file_id (self p))) r]) (cerr p)).
Proof. apply close_when_open. Qed.

(** C10.  A call of [write_dataset_nd], of [write_attribute] or of
    [write_dataset] that returns, or that terminates the process, leaves
    the object as it found it: the handle stored after the call is the
    handle stored before it. *)
Theorem writers_keep_file_id p :
  (forall T name rank dims data ft,
      wp (write_dataset_nd hdf5_call T name rank dims data ft)
         (fun _ p' => file_id (self p') = file_id (self p))
         (fun _ p' => file_id (self p') = file_id (self p)) True p)
  /\
  (forall T parent name data,
      wp (write_attribute hdf5_call T parent name data)
         (fun _ p' => file_id (self p') = file_id (self p))
         (fun _ p' => file_id (self p') = file_id (self p)) True p)
  /\
  (forall T name len data ft,
      wp (write_dataset hdf5_call T name len data ft)
         (fun _ p' => file_id (self p') = file_id (self p))
         (fun _ p' => file_id (self p') = file_id (self p)) True p).
Proof.
  assert (Hnd : forall T name rank dims data ft,
             wp (write_dataset_nd hdf5_call T name rank dims data ft)
                (fun _ p' => file_id (self p') = file_id (self p))
                (fun _ p' => file_id (self p') = file_id (self p)) True p).
  { intros T name rank dims data ft.
    pose proof (write_dataset_nd_runs hdf5_call T name rank dims data ft p) as H.
    unfold wp in *.
    destruct (write_dataset_nd hdf5_call T name rank dims data ft p)
      as [[] p' | b p' |]; [| | exact I].
    - destruct H as [-> _]. reflexivity.
    - destruct H as (_ & -> & _). reflexivity. }
  split; [exact Hnd |]. split.
  - intros T parent name data.
    pose proof (write_attribute_runs hdf5_call T parent name data p) as H.
    unfold wp in *.
    destruct (write_attribute hdf5_call T parent name data p)
      as [[] p' | b p' |]; [| | exact I].
    + destruct H as [-> _]. reflexivity.
    + destruct H as (_ & -> & _). reflexivity.
  - intros T name len data ft. apply Hnd.
Qed.

(** C5.  [write_dataset] with a length is [write_dataset_nd] with rank 1
    and the one extent equal to the length: for every element type,
    name, length, buffer and storage type, and in every process, the two
    calls have the same outcome (the same calls logged, the same
    messages, the same final state).  The extents array it builds has
    the one element the rank announces, so the call never reads outside
    it. *)
Theorem write_dataset_is_write_dataset_nd_of_rank_1 T name len data ft p :
  write_dataset hdf5_call T name len data ft p
  = write_dataset_nd hdf5_call T name 1 [len] data ft p
  /\ write_dataset hdf5_call T name len data ft p <> Undefined.
Proof.
  split; [reflexivity |].
  pose proof (write_dataset_nd_runs hdf5_call T name 1 [len] data ft p) as H.
  unfold wp in H. intros Hrun.
  change (write_dataset hdf5_call T name len data ft p)
    with (write_dataset_nd hdf5_call T name 1 [len] data ft p) in Hrun.
  rewrite Hrun in H. by apply H.
Qed.

End Handle.

(** A run of C3 on the model: a fresh instance creates "out.h5" and closes
    it; a second [create] before the [close] terminates the process. *)
Lemma create_close_handle_protocol_witness :
  create Hdf5Model.answer "out.h5" (fresh Hdf5Model.empty)
  = Returns tt opened_process
  /\ close Hdf5Model.answer opened_process
     = Returns tt
         (Process {| file_id := -1 |} (Hdf5Model.State 101 ∅ ∅ [])
            [Ev (H5Fcreate "out.h5" 2 0 0) 100; Ev (H5Fclose 100) 0] [])
  /\ create Hdf5Model.answer "other.h5" opened_process
     = Aborts false
         (Process {| file_id := 100 |} (hdf5 opened_process)
            (calls opened_process)
            ["Attempted to create file when already open!"])
  /\ close Hdf5Model.answer (fresh Hdf5Model.empty)
     = Aborts false
         (Process constructor Hdf5Model.empty []
            ["Attempted to close file which is not open!"]).
Proof.
  destruct (create_close_handle_protocol Hdf5Model.answer
              (fresh Hdf5Model.empty) "out.h5") as (_ & Hclose0 & Hcreate0 & _).
  destruct (create_close_handle_protocol Hdf5Model.answer
              opened_process "other.h5") as (Hcreate1 & _ & _ & Hclose1).
  split; [| split; [| split]].
  - apply Hcreate0; [cbn; lia | reflexivity | lia].
  - apply Hclose1; [cbn; lia | reflexivity].
  - apply Hcreate1. cbn; lia.
  - apply Hclose0. cbn; lia.
Defined.

(** A run of C10 on the model: a dataset is written into the open file and
    the instance still holds handle 100. *)
Lemma writers_keep_file_id_witness :
  exists p',
    write_dataset_nd Hdf5Model.answer c_int "/ids" 1 [3] [1; 2; 3]
      default_filetype_id opened_process = Returns tt p' /\
    file_id (self p') = 100.
Proof.
  destruct (writers_keep_file_id Hdf5Model.answer opened_process) as (Hnd & _).
  specialize (Hnd c_int "/ids" 1 [3] [1; 2; 3] default_filetype_id).
  unfold wp in Hnd.
  destruct (write_dataset_nd Hdf5Model.answer c_int "/ids" 1 [3] [1; 2; 3]
              default_filetype_id opened_process) as [[] p' | b p' |] eqn:Hrun.
  - exists p'. split; [reflexivity | exact Hnd].
  - vm_compute in Hrun. discriminate.
  - vm_compute in Hrun. discriminate.
Defined.

(** A run of C9 on a medium that fails at [H5Fclose]: the call answers -1
    and [close] returns as if nothing had happened. *)
Lemma close_ignores_H5Fclose_result_witness :
  close Hdf5Model.answer_failing_close opened_process
  = Returns tt
      (Process {| file_id := -1 |} (hdf5 opened_process)
         [Ev (H5Fcreate "out.h5" 2 0 0) 100; Ev (H5Fclose 100) (-1)] []).
Proof.
  apply (close_ignores_H5Fclose_result Hdf5Model.answer_failing_close
           opened_process (-1) (hdf5 opened_process));
    [cbn; lia | reflexivity].
Defined.

(** * The type lookup *)

Section TypeLookup.

Context `{env : Hdf5Env}.
Context {L : Type}.
Variable hdf5_call : h5call -> L -> Z * L.





End TypeLookup.


(** * Chunking and compression *)

Section Chunking.

Context `{env : Hdf5Env}.
Context {L : Type}.
Variable hdf5_call : h5call -> L -> Z * L.

Implicit Types (p : process L) (l : L).

(** Whatever the extents, a dataset is created with the default property
    lists in all three places: the property list the header prepares
    never reaches [H5Dcreate]. *)
Lemma write_dataset_nd_passes_default_dcpl T name rank dims data ft p :
  wp (write_dataset_nd hdf5_call T name rank dims data ft)
     (fun _ p' =>
        exists new, calls p' = calls p ++ new /\
                    Forall (fun e => forall d, dcpl_of (ev_call e) = Some d ->
                                               d = H5P_DEFAULT) new)
     (fun _ p' =>
        exists new, calls p' = calls p ++ new /\
                    Forall (fun e => forall d, dcpl_of (ev_call e) = Some d ->
                                               d = H5P_DEFAULT) new)
     True p.
Proof.
  assert (Hcall : forall fid mem new,
             Forall (fun e => nd_call fid mem (ev_call e) = true) new ->
             Forall (fun e => forall d, dcpl_of (ev_call e) = Some d ->
                                        d = H5P_DEFAULT) new).
  { intros fid mem new Hnew. eapply Forall_impl; [exact Hnew |].
    intros [c r] Hc d Hd.
    destruct c; try discriminate. cbn in *.
    apply bool_decide_eq_true_1 in Hc. destruct Hc as (_ & _ & Hc & _).
    congruence. }
  pose proof (write_dataset_nd_runs hdf5_call T name rank dims data ft p) as H.
  unfold wp in *.
  destruct (write_dataset_nd hdf5_call T name rank dims data ft p)
    as [[] p' | b p' |]; [| | exact I].
  - destruct H as (_ & _ & new & Hnew & Hok & _). eauto.
  - destruct H as (_ & _ & (new & Hnew & Hok) & _). eauto.
Qed.

(** The preparation itself follows the extents: the property list is given
    chunked layout, chunks min(8192, extent) and deflate level 6 exactly
    when no extent is 0 and one exceeds 8192. *)
Lemma write_dataset_nd_prepares_chunking T name dims data ft p :
  wp (write_dataset_nd hdf5_call T name (Z.of_nat (length dims)) dims data ft)
     (fun _ p' => exists new, calls p' = calls p ++ new /\ prepared dims new)
     (fun _ p' => exists new, calls p' = calls p ++ new /\ prepared dims new)
     False p.
Proof.
  unfold write_dataset_nd. wp_run; try congruence.
  all: repeat match goal with
              | Hv : Z.of_nat _ = Z.of_nat _ -> _ = _ |- _ =>
                  specialize (Hv eq_refl); subst
              end.
  all: match goal with
       | Hc : negb (nonzero_size_of ?ds =? 0) && _ = ?b |- _ =>
           change (chunk_wanted ds = b) in Hc
       end.
  all: log_split; unfold prepared;
    match goal with Hc : chunk_wanted _ = _ |- _ => rewrite Hc end;
    cbn [app].
  all: first
         [ do 6 eexists; split; [reflexivity |];
           each_event ltac:(reflexivity)
         | each_event ltac:(reflexivity) ].
Qed.

Lemma nonzero_size_of_spec (dims : list Z) :
  nonzero_size_of dims <> 0 <-> Forall (fun d => d <> 0) dims.
Proof.
  unfold nonzero_size_of. rewrite Forall_forall.
  case_bool_decide as Hin; split.
  - intros Hne. by destruct Hne.
  - intros Hall _. by apply (Hall 0 Hin).
  - intros _ d Hd ->. by apply Hin.
  - intros _. lia.
Qed.

Lemma large_dataset_of_spec (dims : list Z) :
  large_dataset_of dims <> 0 <-> Exists (fun d => CHUNK_SIZE < d) dims.
Proof.
  unfold large_dataset_of. case_bool_decide as Hex; split.
  - intros _. exact Hex.
  - intros _. lia.
  - intros Hne. by destruct Hne.
  - intros Hex'. by destruct Hex.
Qed.

Lemma chunk_wanted_iff (dims : list Z) :
  chunk_wanted dims = true <->
  Forall (fun d => d <> 0) dims /\ Exists (fun d => CHUNK_SIZE < d) dims.
Proof.
  unfold chunk_wanted.
  rewrite andb_true_iff, !negb_true_iff, !Z.eqb_neq.
  by rewrite nonzero_size_of_spec, large_dataset_of_spec.
Qed.

(** C4.  When the extents array has [rank] elements and one of them is 0,
    [write_dataset_nd] runs to its end or to a fatal error without
    setting a chunked layout, chunk extents or a compression filter on
    any property list, and the dataset creation it issues is given the
    default creation properties, however large the other extents are. *)
Theorem zero_extent_never_chunked T name rank dims data ft p :
  rank = Z.of_nat (length dims) ->
  0 ∈ dims ->
  wp (write_dataset_nd hdf5_call T name rank dims data ft)
     (fun _ p' =>
        exists new, calls p' = calls p ++ new /\
                    Forall (fun e => plain_call (ev_call e) = true) new /\
                    Exists (fun e => dcpl_of (ev_call e) = Some H5P_DEFAULT) new)
     (fun _ p' =>
        exists new, calls p' = calls p ++ new /\
                    Forall (fun e => plain_call (ev_call e) = true) new /\
                    Exists (fun e => dcpl_of (ev_call e) = Some H5P_DEFAULT) new)
     False p.
Proof.
  intros Hrank Hzero. unfold write_dataset_nd. wp_run; try contradiction.
  all: try match goal with
           | Hv : _ -> ?v = nonzero_size_of _,
             Hc : negb (?v =? 0) && _ = true |- _ =>
               exfalso; rewrite (Hv Hrank) in Hc; unfold nonzero_size_of in Hc;
               rewrite bool_decide_eq_true_2 in Hc by exact Hzero;
               discriminate
           end.
  all: log_split; split;
    [each_event ltac:(cbn; rewrite ?bool_decide_eq_true_2 by reflexivity;
                      reflexivity)
    | cbn [app];
      repeat first [apply List.Exists_cons_hd; reflexivity
                   | apply List.Exists_cons_tl]].
Qed.

End Chunking.

(** A run of C4 on the model: extents [0; 20000]. *)
Lemma zero_extent_never_chunked_witness :
  wp (write_dataset_nd Hdf5Model.answer c_double "/empty" 2 [0; 20000] [] (-1))
     (fun _ p' =>
        exists new, calls p' = calls opened_process ++ new /\
                    Forall (fun e => plain_call (ev_call e) = true) new /\
                    Exists (fun e => dcpl_of (ev_call e) = Some H5P_DEFAULT) new)
     (fun _ p' =>
        exists new, calls p' = calls opened_process ++ new /\
                    Forall (fun e => plain_call (ev_call e) = true) new /\
                    Exists (fun e => dcpl_of (ev_call e) = Some H5P_DEFAULT) new)
     False opened_process.
Proof.
  apply (zero_extent_never_chunked Hdf5Model.answer c_double "/empty" 2
           [0; 20000] [] (-1) opened_process).
  - reflexivity.
  - apply list_elem_of_here.
Defined.

(** What that run leaves in the file. *)
Example zero_extent_run :
  props_after
    (write_dataset_nd Hdf5Model.answer c_double "/empty" 2 [0; 20000] [] (-1)
       opened_process) "/empty"
  = Some Hdf5Model.default_dcpl.
Proof. vm_compute. reflexivity. Qed.

(** C1 fails on the code.  The extents [3; 20000] are all nonzero and one
    exceeds 8192.  The header prepares a property list (handle 102) with
    chunked layout, chunks [3; 8192] and deflate level 6, and then creates
    the dataset with [H5P_DEFAULT] in the place of the creation property
    list: the dataset gets the default contiguous layout, no chunks and no
    compression. *)
Theorem large_dataset_created_without_chunking :
  let run :=
    write_dataset_nd Hdf5Model.answer c_double "/positions" 2 [3; 20000]
      (replicate (Z.to_nat 60000) 0) default_filetype_id opened_process in
  calls_after run
  = Some [Ev (H5Fcreate "out.h5" H5F_ACC_TRUNC H5P_DEFAULT H5P_DEFAULT) 100;
          Ev (H5Screate_simple 2 [3; 20000]) 101;
          Ev (H5Pcreate H5P_DATASET_CREATE) 102;
          Ev (H5Pset_layout 102 H5D_CHUNKED) 0;
          Ev (H5Pset_chunk 102 2 [3; 8192]) 0;
          Ev (H5Pset_deflate 102 6) 0;
          Ev (H5Dcreate 100 "/positions" H5T_NATIVE_DOUBLE 101
                H5P_DEFAULT H5P_DEFAULT H5P_DEFAULT) 103;
          Ev (H5Dwrite 103 H5T_NATIVE_DOUBLE 101 H5S_ALL H5P_DEFAULT
                (replicate (Z.to_nat 60000) 0)) 0;
          Ev (H5Sclose 101) 0;
          Ev (H5Dclose 103) 0;
          Ev (H5Pclose 102) 0]
  /\ props_after run "/positions"
     = Some (Hdf5Model.Dcpl Hdf5Model.H5D_CONTIGUOUS [] None).
Proof.
  generalize (replicate (Z.to_nat 60000) 0). intros data.
  vm_compute. split; reflexivity.
Qed.

(** * Attributes *)

Section Attributes.

Context `{env : Hdf5Env}.
Context {L : Type}.
Variable hdf5_call : h5call -> L -> Z * L.

(** Whatever [H5Oopen] returned, the attribute is created on the file
    handle of the instance. *)
Lemma write_attribute_creates_on_file_id T parent name data (p : process L) :
  wp (write_attribute hdf5_call T parent name data)
     (fun _ p' =>
        exists new, calls p' = calls p ++ new /\
                    Forall (fun e => forall loc,
                                attr_loc_of (ev_call e) = Some loc ->
                                loc = file_id (self p)) new)
     (fun _ p' =>
        exists new, calls p' = calls p ++ new /\
                    Forall (fun e => forall loc,
                                attr_loc_of (ev_call e) = Some loc ->
                                loc = file_id (self p)) new)
     False p.
Proof.
  assert (Hcall : forall fid mem new,
             Forall (fun e => attr_call fid mem (ev_call e) = true) new ->
             Forall (fun e => forall loc, attr_loc_of (ev_call e) = Some loc ->
                                          loc = fid) new).
  { intros fid mem new Hnew. eapply Forall_impl; [exact Hnew |].
    intros [c r] Hc loc Hloc.
    destruct c; try discriminate. cbn in *.
    apply bool_decide_eq_true_1 in Hc. destruct Hc as [Hc _]. congruence. }
  pose proof (write_attribute_runs hdf5_call T parent name data p) as H.
  unfold wp in *.
  destruct (write_attribute hdf5_call T parent name data p)
    as [[] p' | b p' |]; [| | exact H].
  - destruct H as (_ & _ & new & Hnew & Hok & _). eauto.
  - destruct H as (_ & _ & (new & Hnew & Hok) & _). eauto.
Qed.

End Attributes.

(** C2 fails on the code.  The file holds the dataset "/positions";
    [write_attribute("/positions", "time", 1.5)] opens the dataset (handle
    104) and then creates the attribute on the file handle 100: the
    attribute "time" ends up on the root of the file, and "/positions" has
    none. *)
Theorem attribute_created_on_file_not_on_parent :
  let run :=
    invoke_all Hdf5Model.answer
      [Create "out.h5";
       WriteDataset c_double "/positions" 3 [10; 20; 30] default_filetype_id;
       WriteAttribute c_double "/positions" "time" 4609434218613702656]
      (fresh Hdf5Model.empty) in
  (drop 8 <$> calls_after run)
  = Some [Ev (H5Oopen 100 "/positions" H5P_DEFAULT) 104;
          Ev (H5Screate H5S_SCALAR) 105;
          Ev (H5Acreate 100 "time" H5T_NATIVE_DOUBLE 105 H5P_DEFAULT H5P_DEFAULT)
             106;
          Ev (H5Awrite 106 H5T_NATIVE_DOUBLE 4609434218613702656) 0;
          Ev (H5Aclose 106) 0;
          Ev (H5Sclose 105) 0;
          Ev (H5Oclose 104) 0]
  /\ owners_after run "time" = Some ["/"].
Proof. vm_compute. split; reflexivity. Qed.

(** * The life of an instance *)

Section Lifetime.

Context `{env : Hdf5Env}.
Context {L : Type}.
Variable hdf5_call : h5call -> L -> Z * L.

Implicit Types (p : process L) (l : L).

Lemma paired_app es es' : paired es -> paired es' -> paired (es ++ es').
Proof.
  induction 1 as [| filename flags fcpl fapl h r es Hh Hes IH]; intros Hes'.
  - exact Hes'.
  - cbn. apply paired_cons; auto.
Qed.

Lemma file_calls_app es es' :
  file_calls (es ++ es') = file_calls es ++ file_calls es'.
Proof. apply filter_app. Qed.

Lemma file_calls_none (ok : h5call -> bool) (new : list event) :
  (forall c, ok c = true -> is_file_call c = false) ->
  Forall (fun e => ok (ev_call e) = true) new ->
  file_calls new = [].
Proof.
  intros Hok. induction 1 as [| e new He _ IH]; [reflexivity |].
  unfold file_calls in *. rewrite filter_cons_False; [exact IH |].
  rewrite (Hok _ He). discriminate.
Qed.

Lemma nd_call_not_file fid mem c :
  nd_call fid mem c = true -> is_file_call c = false.
Proof. destruct c; cbn; congruence. Qed.

Lemma attr_call_not_file fid mem c :
  attr_call fid mem c = true -> is_file_call c = false.
Proof. destruct c; cbn; congruence. Qed.

Lemma returned_keeps_handle_inv (ok : h5call -> bool) p p' :
  (forall c, ok c = true -> is_file_call c = false) ->
  returned ok p p' -> handle_inv p -> handle_inv p'.
Proof.
  intros Hok (Hself & _ & new & Hcalls & Hnew & _).
  unfold handle_inv.
  rewrite Hself, Hcalls, file_calls_app, (file_calls_none ok new Hok Hnew).
  by rewrite app_nil_r.
Qed.

Lemma create_keeps_handle_inv filename p p' :
  handle_inv p -> create hdf5_call filename p = Returns tt p' -> handle_inv p'.
Proof.
  intros Hinv Hrun.
  destruct (Z_lt_le_dec (file_id (self p)) 0) as [Hclosed | Hopen].
  - destruct (hdf5_call (H5Fcreate (c_str filename) H5F_ACC_TRUNC H5P_DEFAULT
                           H5P_DEFAULT)
                (hdf5 p)) as [h l] eqn:Hlib.
    rewrite (create_when_closed hdf5_call p filename h l Hclosed Hlib) in Hrun.
    cbn in Hrun. destruct (Z.ltb_spec h 0) as [Hh | Hh]; [discriminate |].
    injection Hrun as <-. right. cbn. split; [exact Hh |].
    exists (file_calls (calls p)), (c_str filename), H5F_ACC_TRUNC, H5P_DEFAULT,
      H5P_DEFAULT.
    split; [by rewrite file_calls_app |].
    destruct Hinv as [[_ Hp] | [Hge _]]; [exact Hp | lia].
  - rewrite (create_when_open hdf5_call p filename Hopen) in Hrun. discriminate.
Qed.

Lemma close_keeps_handle_inv p p' :
  handle_inv p -> close hdf5_call p = Returns tt p' -> handle_inv p'.
Proof.
  intros Hinv Hrun.
  destruct (Z_lt_le_dec (file_id (self p)) 0) as [Hclosed | Hopen].
  - rewrite (close_when_closed hdf5_call p Hclosed) in Hrun. discriminate.
  - destruct (hdf5_call (H5Fclose (file_id (self p))) (hdf5 p)) as [r l] eqn:Hlib.
    rewrite (close_when_open hdf5_call p r l Hopen Hlib) in Hrun.
    injection Hrun as <-. left. cbn. split; [reflexivity |].
    destruct Hinv as [[Heq _] | (_ & es & fn & fl & a & b & Hes & Hp)]; [lia |].
    rewrite file_calls_app, Hes, <- app_assoc.
    apply paired_app; [exact Hp |].
    apply paired_cons; [exact Hopen | apply paired_nil].
Qed.

Lemma invoke_keeps_handle_inv m p p' :
  handle_inv p -> invoke hdf5_call m p = Returns tt p' -> handle_inv p'.
Proof.
  intros Hinv Hrun. destruct m as [filename | | T name len data ft
                                   | T name rank dims data ft
                                   | T parent name data]; cbn in Hrun.
  - by eapply create_keeps_handle_inv.
  - by eapply close_keeps_handle_inv.
  - pose proof (write_dataset_nd_runs hdf5_call T name 1 [len] data ft p) as H.
    unfold wp in H. change (write_dataset hdf5_call T name len data ft p)
      with (write_dataset_nd hdf5_call T name 1 [len] data ft p) in Hrun.
    rewrite Hrun in H.
    eapply returned_keeps_handle_inv; [apply nd_call_not_file | exact H | exact Hinv].
  - pose proof (write_dataset_nd_runs hdf5_call T name rank dims data ft p) as H.
    unfold wp in H. rewrite Hrun in H.
    eapply returned_keeps_handle_inv; [apply nd_call_not_file | exact H | exact Hinv].
  - pose proof (write_attribute_runs hdf5_call T parent name data p) as H.
    unfold wp in H. rewrite Hrun in H.
    eapply returned_keeps_handle_inv; [apply attr_call_not_file | exact H | exact Hinv].
Qed.

Lemma invoke_all_keeps_handle_inv ms :
  forall p p',
    handle_inv p -> invoke_all hdf5_call ms p = Returns tt p' -> handle_inv p'.
Proof.
  induction ms as [| m ms IH]; intros p p' Hinv Hrun; cbn in Hrun.
  - injection Hrun as <-. exact Hinv.
  - unfold mbind, M_bind, bind in Hrun.
    destruct (invoke hdf5_call m p) as [[] p1 | |] eqn:Hm; try discriminate.
    eapply IH; [| exact Hrun]. by eapply invoke_keeps_handle_inv.
Qed.

Lemma destructor_when_open p :
  0 <= file_id (self p) -> destructor hdf5_call p = close hdf5_call p.
Proof.
  intros Hopen. unfold destructor, mbind, M_bind, bind, get_file_id.
  destruct (Z.leb_spec 0 (file_id (self p))); [reflexivity | lia].
Qed.

Lemma destructor_when_closed p :
  file_id (self p) < 0 -> destructor hdf5_call p = Returns tt p.
Proof.
  intros Hclosed. unfold destructor, mbind, M_bind, bind, get_file_id.
  destruct (Z.leb_spec 0 (file_id (self p))); [lia | reflexivity].
Qed.

(** C6.  The destructor of an instance that holds a handle is [close]:
    the handle goes to [H5Fclose] and the member is reset.  The
    destructor of an instance that holds none does nothing: no call, no
    message, the process as it was.  And over a whole life that reaches
    its end (any calls of the public methods on a fresh instance, then
    the destructor), the file calls are paired: every handle obtained
    from [H5Fcreate] is handed to [H5Fclose] once, before the next one is
    obtained, and none is held at the end. *)
Theorem destructor_releases_handle_once :
  (forall p,
      0 <= file_id (self p) ->
      destructor hdf5_call p = close hdf5_call p /\
      forall r l,
        hdf5_call (H5Fclose (file_id (self p))) (hdf5 p) = (r, l) ->
        destructor hdf5_call p =
        Returns tt
          (Process {| file_id := -1 |} l
             (calls p ++ [Ev (H5Fclose (file_id (self p))) r]) (cerr p)))
  /\
  (forall p, file_id (self p) < 0 -> destructor hdf5_call p = Returns tt p)
  /\
  (forall l ms p',
      lifetime hdf5_call ms (fresh l) = Returns tt p' ->
      file_id (self p') = -1 /\ paired (file_calls (calls p'))).
Proof.
  split; [| split].
  - intros p Hopen. split; [by apply destructor_when_open |].
    intros r l Hlib. rewrite destructor_when_open by exact Hopen.
    by apply close_when_open.
  - apply destructor_when_closed.
  - intros l ms p' Hrun. unfold lifetime, mbind, M_bind, bind in Hrun.
    destruct (invoke_all hdf5_call ms (fresh l)) as [[] p1 | |] eqn:Hms;
      try discriminate.
    assert (Hinv : handle_inv p1).
    { eapply invoke_all_keeps_handle_inv; [| exact Hms].
      left. split; [reflexivity | apply paired_nil]. }
    assert (Hinv' : handle_inv p').
    { destruct (Z_lt_le_dec (file_id (self p1)) 0) as [Hclosed | Hopen].
      - rewrite destructor_when_closed in Hrun by exact Hclosed.
        by injection Hrun as <-.
      - rewrite destructor_when_open in Hrun by exact Hopen.
        by eapply close_keeps_handle_inv. }
    destruct (Z_lt_le_dec (file_id (self p1)) 0) as [Hclosed | Hopen].
    + rewrite destructor_when_closed in Hrun by exact Hclosed.
      injection Hrun as <-.
      destruct Hinv as [[Heq Hp] | [Hge _]]; [by split | lia].
    + rewrite destructor_when_open in Hrun by exact Hopen.
      destruct (hdf5_call (H5Fclose (file_id (self p1))) (hdf5 p1))
        as [r l1] eqn:Hlib.
      rewrite (close_when_open hdf5_call p1 r l1 Hopen Hlib) in Hrun.
      injection Hrun as <-. cbn.
      destruct Hinv' as [[_ Hp] | [Hge _]]; [by split | cbn in Hge; lia].
Qed.

End Lifetime.

(** A life on the model: a file is created, written to and never closed by
    the client; the destructor closes it. *)
Lemma destructor_releases_handle_once_witness :
  exists p',
    lifetime Hdf5Model.answer
      [Create "out.h5"; WriteDataset c_int "/ids" 3 [1; 2; 3] default_filetype_id]
      (fresh Hdf5Model.empty) = Returns tt p' /\
    file_id (self p') = -1 /\ paired (file_calls (calls p')).
Proof.
  destruct (destructor_releases_handle_once Hdf5Model.answer) as (_ & _ & Hlife).
  destruct (lifetime Hdf5Model.answer
              [Create "out.h5";
               WriteDataset c_int "/ids" 3 [1; 2; 3] default_filetype_id]
              (fresh Hdf5Model.empty)) as [[] p' | b p' |] eqn:Hrun.
  - exists p'. split; [reflexivity |]. exact (Hlife _ _ _ Hrun).
  - vm_compute in Hrun. discriminate.
  - vm_compute in Hrun. discriminate.
Defined.

(** * Failures *)

Section Occurrences.

Lemma append_cons (a : Ascii.ascii) (s t : string) :
  String a s +:+ t = String a (s +:+ t).
Proof. reflexivity. Qed.

Lemma is_prefix_app (s post : string) : is_prefix s (s +:+ post) = true.
Proof.
  induction s as [| a s IH]; [reflexivity |].
  rewrite append_cons. cbn [is_prefix].
  by rewrite bool_decide_eq_true_2, IH.
Qed.

Lemma is_prefix_refl (s : string) : is_prefix s s = true.
Proof.
  induction s as [| a s IH]; cbn [is_prefix]; [reflexivity |].
  by rewrite bool_decide_eq_true_2, IH.
Qed.

Lemma is_prefix_inv (s t : string) :
  is_prefix s t = true -> exists post, t = s +:+ post.
Proof.
  revert t. induction s as [| a s IH]; intros t Hp; cbn [is_prefix] in Hp.
  - by exists t.
  - destruct t as [| b t]; [discriminate |].
    apply andb_prop in Hp as [Hab Hp].
    apply bool_decide_eq_true_1 in Hab as <-.
    destruct (IH t Hp) as [post ->]. by exists post.
Qed.

Lemma occurs_in_prefix (s t : string) :
  is_prefix s t = true -> occurs_in s t = true.
Proof. intros Hp. destruct t; cbn [occurs_in]; rewrite Hp; reflexivity. Qed.

Lemma occurs_in_app_r (s pre t : string) :
  occurs_in s t = true -> occurs_in s (pre +:+ t) = true.
Proof.
  intros Hs. induction pre as [| a pre IH]; [exact Hs |].
  rewrite append_cons. cbn [occurs_in]. rewrite IH. apply orb_true_r.
Qed.

(** [occurs_in] decides what it says. *)
Lemma occurs_in_spec (s t : string) :
  occurs_in s t = true <-> exists pre post, t = pre +:+ s +:+ post.
Proof.
  split.
  - induction t as [| b t IH]; cbn [occurs_in]; intros Hs.
    + rewrite orb_false_r in Hs.
      destruct (is_prefix_inv _ _ Hs) as [post ->]. by exists "", post.
    + apply orb_prop in Hs as [Hs | Hs].
      * destruct (is_prefix_inv _ _ Hs) as [post ->]. by exists "", post.
      * destruct (IH Hs) as (pre & post & ->). by exists (String b pre), post.
  - intros (pre & post & ->).
    apply occurs_in_app_r, occurs_in_prefix, is_prefix_app.
Qed.

End Occurrences.

(** C8 as stated fails twice.  A [create] on an instance that holds the
    handle of "out.h5" terminates with a message that names no file,
    neither the one asked for nor the one open.  And on a medium where
    [H5Fclose] fails, [close] returns although the call it made answered
    -1: a return does not say that everything succeeded. *)
Lemma misuse_message_names_nothing_and_close_returns_on_failure :
  (exists p',
      invoke Hdf5Model.answer (Create "other.h5") opened_process
      = Aborts false p' /\
      cerr p' = ["Attempted to create file when already open!"] /\
      occurs_in "other.h5" "Attempted to create file when already open!" = false /\
      occurs_in "out.h5" "Attempted to create file when already open!" = false)
  /\
  (exists p',
      invoke Hdf5Model.answer_failing_close Close opened_process
      = Returns tt p' /\
      cerr p' = [] /\
      last (calls p') = Some (Ev (H5Fclose 100) (-1))).
Proof.
  split; eexists; (split; [vm_compute; reflexivity |]); repeat split.
Qed.

(** * The writers, call by call *)

(** Closing the leaves of a run whose log is given in full. *)
Ltac solve_log :=
  cbn [calls self cerr];
  unfold nd_start, nd_finish, attr_written, attr_created, attr_opened;
  cbn [app]; rewrite <- ?app_assoc; cbn [app]; reflexivity.

Ltac neg_results :=
  repeat match goal with
         | H : (_ <? 0) = true |- _ => apply Z.ltb_lt in H
         end.

Ltac solve_mid := first [left; reflexivity | right; repeat eexists].

Ltac nd_leaf_returned :=
  split; [reflexivity | split; [reflexivity |]];
  first [eexists _, _, [], _, _, _, _, _;
         (split; [| split; [| split]]); [| | | solve_log]
        |eexists _, _, [_; _; _], _, _, _, _, _;
         (split; [| split; [| split]]); [| | | solve_log]];
  [solve_mid | assumption | assumption].

Ltac nd_leaf_aborted_with ex :=
  ex; (split; [solve_mid |]);
  first
    [ left; (split; [| split]); [| solve_log | reflexivity]; assumption
    | right; (split; [| eexists; split; [| split]]);
      [| | solve_log | reflexivity]; assumption ].

Ltac nd_leaf_aborted :=
  split; [reflexivity | split; [reflexivity |]];
  first [nd_leaf_aborted_with ltac:(eexists _, _, [], _)
        |nd_leaf_aborted_with ltac:(eexists _, _, [_; _; _], _)].

Ltac attr_leaf_returned :=
  split; [reflexivity | split; [reflexivity |]];
  eexists _, _, _, _, _, _, _;
  (split; [| split; [| split]]); [| | | solve_log]; assumption.

Ltac attr_leaf_aborted :=
  split; [reflexivity | split; [reflexivity |]]; eexists;
  first
    [ left; (split; [| split]); [| solve_log | reflexivity]; assumption
    | right; (split; [| eexists _, _; left; (split; [| split])]);
      [| | solve_log | reflexivity]; assumption
    | right;
      (split; [| eexists _, _; right; (split; [| eexists; (split; [| split])])]);
      [| | | solve_log | reflexivity]; assumption ].

Section Shapes.

Context `{env : Hdf5Env}.
Context {L : Type}.
Variable hdf5_call : h5call -> L -> Z * L.

Implicit Types (p : process L) (l : L).

Lemma write_dataset_nd_shape T name rank dims data ft p :
  wp (write_dataset_nd hdf5_call T name rank dims data ft)
     (fun _ => nd_returned T name rank dims data ft p)
     (nd_aborted T name rank dims data ft p)
     (rank <> Z.of_nat (length dims)) p.
Proof.
  unfold write_dataset_nd. wp_run; try assumption; nonneg_results; neg_results.
  all: first [nd_leaf_returned | nd_leaf_aborted].
Qed.

Lemma write_attribute_shape T parent name data p :
  wp (write_attribute hdf5_call T parent name data)
     (fun _ => attr_returned T parent name data p)
     (attr_aborted T parent name data p)
     False p.
Proof.
  unfold write_attribute. wp_run; nonneg_results; neg_results.
  all: first [attr_leaf_returned | attr_leaf_aborted].
Qed.

End Shapes.

(** * What a writer asks of the library *)

Section DataFlow.

Context `{env : Hdf5Env}.
Context {L : Type}.
Variable hdf5_call : h5call -> L -> Z * L.

Implicit Types (p : process L) (l : L).

Lemma dataset_calls_mid prop rank mid :
  nd_mid prop rank mid -> dataset_calls mid = [].
Proof. by intros [-> | (chunks & r1 & r2 & r3 & ->)]. Qed.

Lemma dataset_calls_app es es' :
  dataset_calls (es ++ es') = dataset_calls es ++ dataset_calls es'.
Proof. apply filter_app. Qed.

(** A call of [write_dataset_nd] that returns has created one dataset and
    written to it once.  The dataset was created in the file of the
    instance, under the C string of the name given (the name up to its
    first NUL), over the data space made from [rank] and [dims], with the
    storage type given or, when the one given is negative (line 89), the
    memory type: the identifier [hdf5_type] returns at the overload
    selected for the element type.  The write went to that dataset, took
    the whole buffer, described it by that memory type and the same data
    space, and selected the whole dataset in the file. *)
Theorem write_dataset_nd_creates_then_writes T name rank dims data ft p :
  wp (write_dataset_nd hdf5_call T name rank dims data ft)
     (fun _ p' =>
        exists new dspace dset r,
          calls p' = calls p ++ new /\
          Ev (H5Screate_simple rank dims) dspace ∈ new /\
          dataset_calls new
          = [Ev (H5Dcreate (file_id (self p)) (c_str name)
                   (if ft <? 0 then hdf5_type T else ft) dspace
                   H5P_DEFAULT H5P_DEFAULT H5P_DEFAULT) dset;
             Ev (H5Dwrite dset (hdf5_type T) dspace H5S_ALL H5P_DEFAULT data) r] /\
          0 <= dset /\ 0 <= r)
     (fun _ _ => True) True p.
Proof.
  pose proof (write_dataset_nd_shape hdf5_call T name rank dims data ft p) as H.
  unfold wp in *.
  destruct (write_dataset_nd hdf5_call T name rank dims data ft p)
    as [[] p' | b p' |]; [| exact I | exact I].
  destruct H as (_ & _ & dspace & prop & mid & dset & r & r1 & r2 & r3
                 & Hmid & Hdset & Hr & Hcalls).
  eexists _, dspace, dset, r. split; [exact Hcalls |].
  split; [| split; [| by split]].
  - apply elem_of_app. left. apply list_elem_of_here.
  - unfold nd_start, nd_finish.
    change (Ev (H5Screate_simple rank dims) dspace
            :: Ev (H5Pcreate H5P_DATASET_CREATE) prop :: mid ++ ?c)
      with ([Ev (H5Screate_simple rank dims) dspace;
             Ev (H5Pcreate H5P_DATASET_CREATE) prop] ++ mid ++ c).
    rewrite !dataset_calls_app, (dataset_calls_mid _ _ _ Hmid). reflexivity.
Qed.

(** A call of [write_attribute] that returns has created one attribute and
    written to it once: the attribute was created under the C string of
    the name given (the name up to its first NUL), with the identifier
    [hdf5_type] returns at the overload selected for the type of the
    value and with a scalar data space, and the write went to that
    attribute with the value given and the same identifier. *)
Theorem write_attribute_creates_then_writes T parent name data p :
  wp (write_attribute hdf5_call T parent name data)
     (fun _ p' =>
        exists new loc dspace attr r,
          calls p' = calls p ++ new /\
          Ev (H5Screate H5S_SCALAR) dspace ∈ new /\
          attribute_calls new
          = [Ev (H5Acreate loc (c_str name) (hdf5_type T) dspace H5P_DEFAULT
                   H5P_DEFAULT)
                attr;
             Ev (H5Awrite attr (hdf5_type T) data) r] /\
          0 <= attr /\ 0 <= r)
     (fun _ _ => True) False p.
Proof.
  pose proof (write_attribute_shape hdf5_call T parent name data p) as H.
  unfold wp in *.
  destruct (write_attribute hdf5_call T parent name data p)
    as [[] p' | b p' |]; [| exact I | exact H].
  destruct H as (_ & _ & par & dspace & attr & r & r1 & r2 & r3
                 & Hpar & Hattr & Hr & Hcalls).
  eexists _, _, dspace, attr, r. split; [exact Hcalls |].
  split; [| split; [reflexivity | by split]].
  unfold attr_written, attr_created, attr_opened. cbn [app].
  apply list_elem_of_further, list_elem_of_here.
Qed.

End DataFlow.

(** * Handles *)

Section Handles.

Context `{env : Hdf5Env}.
Context {L : Type}.
Variable hdf5_call : h5call -> L -> Z * L.

Implicit Types (p : process L) (l : L).

Lemma obtained_app es es' : obtained (es ++ es') = obtained es ++ obtained es'.
Proof. apply omap_app. Qed.

Lemma released_app es es' : released (es ++ es') = released es ++ released es'.
Proof. apply omap_app. Qed.

Lemma nd_mid_handles prop rank mid :
  nd_mid prop rank mid -> obtained mid = [] /\ released mid = [].
Proof. by intros [-> | (chunks & r1 & r2 & r3 & ->)]. Qed.

Lemma nd_start_handles fid T name rank dims ft dspace prop mid dset :
  nd_mid prop rank mid ->
  obtained (nd_start fid T name rank dims ft dspace prop mid dset)
  = [(KSpace, dspace); (KPlist, prop); (KDataset, dset)] /\
  released (nd_start fid T name rank dims ft dspace prop mid dset) = [].
Proof.
  intros Hmid. destruct (nd_mid_handles _ _ _ Hmid) as [Ho Hr].
  unfold nd_start.
  change (Ev (H5Screate_simple rank dims) dspace
          :: Ev (H5Pcreate H5P_DATASET_CREATE) prop :: mid ++ ?c)
    with ([Ev (H5Screate_simple rank dims) dspace;
           Ev (H5Pcreate H5P_DATASET_CREATE) prop] ++ mid ++ c).
  by rewrite !obtained_app, !released_app, Ho, Hr.
Qed.

(** A writer that returned has released what it obtained. *)
Lemma nd_returned_balanced T name rank dims data ft p p' :
  nd_returned T name rank dims data ft p p' ->
  self p' = self p /\
  exists new, calls p' = calls p ++ new /\ released new ≡ₚ obtained new.
Proof.
  intros (Hself & _ & dspace & prop & mid & dset & r & r1 & r2 & r3
          & Hmid & _ & _ & Hcalls).
  split; [exact Hself |]. eexists. split; [exact Hcalls |].
  destruct (nd_start_handles (file_id (self p)) T name rank dims ft dspace prop
              mid dset Hmid) as [Ho Hr].
  rewrite obtained_app, released_app, Ho, Hr. cbn.
  apply perm_skip, perm_swap.
Qed.

Lemma attr_returned_balanced T parent name data p p' :
  attr_returned T parent name data p p' ->
  self p' = self p /\
  exists new, calls p' = calls p ++ new /\ released new ≡ₚ obtained new.
Proof.
  intros (Hself & _ & par & dspace & attr & r & r1 & r2 & r3
          & _ & _ & _ & Hcalls).
  split; [exact Hself |]. eexists. split; [exact Hcalls |].
  cbn. change [(KAttr, attr); (KSpace, dspace); (KObject, par)]
    with (reverse [(KObject, par); (KSpace, dspace); (KAttr, attr)]).
  apply reverse_Permutation.
Qed.

(** A writer that terminated the process has released nothing. *)
Lemma nd_aborted_unreleased T name rank dims data ft p b p' :
  nd_aborted T name rank dims data ft p b p' ->
  exists new, calls p' = calls p ++ new /\ released new = [] /\
              obtained new <> [].
Proof.
  intros (_ & _ & dspace & prop & mid & dset & Hmid & H).
  destruct (nd_start_handles (file_id (self p)) T name rank dims ft dspace prop
              mid dset Hmid) as [Ho Hr].
  destruct H as [(_ & Hcalls & _) | (_ & r & _ & Hcalls & _)];
    eexists; (split; [exact Hcalls |]).
  - by rewrite Ho, Hr.
  - by rewrite obtained_app, released_app, Ho, Hr.
Qed.

Lemma attr_aborted_unreleased T parent name data p b p' :
  attr_aborted T parent name data p b p' ->
  exists new, calls p' = calls p ++ new /\ released new = [] /\
              obtained new <> [].
Proof.
  intros (_ & _ & par & [(_ & Hcalls & _)
                        | (_ & dspace & attr
                           & [(_ & Hcalls & _) | (_ & r & _ & Hcalls & _)])]);
    eexists; (split; [exact Hcalls |]); by split.
Qed.

(** The two writers hand back what they take.  A call that returns has
    released every handle it obtained, once, by the release function of
    the handle's kind: data space, property list and dataset for
    [write_dataset_nd]; parent object, data space and attribute for
    [write_attribute].  A call that terminates the process has released
    none of the handles it had obtained by then. *)
Theorem writers_release_their_handles p :
  (forall T name rank dims data ft,
      wp (write_dataset_nd hdf5_call T name rank dims data ft)
         (fun _ p' =>
            exists new, calls p' = calls p ++ new /\
                        released new ≡ₚ obtained new)
         (fun _ p' =>
            exists new, calls p' = calls p ++ new /\
                        released new = [] /\ obtained new <> [])
         True p)
  /\
  (forall T parent name data,
      wp (write_attribute hdf5_call T parent name data)
         (fun _ p' =>
            exists new, calls p' = calls p ++ new /\
                        released new ≡ₚ obtained new)
         (fun _ p' =>
            exists new, calls p' = calls p ++ new /\
                        released new = [] /\ obtained new <> [])
         False p).
Proof.
  split.
  - intros T name rank dims data ft.
    pose proof (write_dataset_nd_shape hdf5_call T name rank dims data ft p) as H.
    unfold wp in *.
    destruct (write_dataset_nd hdf5_call T name rank dims data ft p)
      as [[] p' | b p' |]; [| | exact I].
    + by apply nd_returned_balanced in H as [_ H].
    + by eapply nd_aborted_unreleased.
  - intros T parent name data.
    pose proof (write_attribute_shape hdf5_call T parent name data p) as H.
    unfold wp in *.
    destruct (write_attribute hdf5_call T parent name data p)
      as [[] p' | b p' |]; [| | exact H].
    + by apply attr_returned_balanced in H as [_ H].
    + by eapply attr_aborted_unreleased.
Qed.

(** ** Over a life *)

Lemma held_closed (o : H5OutputFile) : file_id o < 0 -> held o = [].
Proof.
  intros H. unfold held. by destruct (Z.leb_spec 0 (file_id o)); [lia |].
Qed.

Lemma held_open (o : H5OutputFile) :
  0 <= file_id o -> held o = [(KFile, file_id o)].
Proof.
  intros H. unfold held. by destruct (Z.leb_spec 0 (file_id o)); [| lia].
Qed.

Lemma balanced_keeps_settled p p' :
  self p' = self p ->
  (exists new, calls p' = calls p ++ new /\ released new ≡ₚ obtained new) ->
  settled p -> settled p'.
Proof.
  intros Hself (new & Hcalls & Hnew) [Hfid Hp]. unfold settled.
  rewrite Hself, Hcalls, obtained_app, released_app, Hp, Hnew.
  split; [exact Hfid |]. solve_Permutation.
Qed.

Lemma create_keeps_settled filename p p' :
  settled p -> create hdf5_call filename p = Returns tt p' -> settled p'.
Proof.
  intros [Hfid Hp] Hrun.
  destruct (Z_lt_le_dec (file_id (self p)) 0) as [Hclosed | Hopen].
  - destruct (hdf5_call (H5Fcreate (c_str filename) H5F_ACC_TRUNC H5P_DEFAULT
                           H5P_DEFAULT)
                (hdf5 p)) as [h l] eqn:Hlib.
    rewrite (create_when_closed hdf5_call p filename h l Hclosed Hlib) in Hrun.
    cbn in Hrun. destruct (Z.ltb_spec h 0) as [Hh | Hh]; [discriminate |].
    injection Hrun as <-. unfold settled. cbn [self calls].
    split; [by right |].
    rewrite obtained_app, released_app, Hp, held_closed, held_open
      by (cbn; lia).
    cbn. by rewrite !app_nil_r.
  - rewrite (create_when_open hdf5_call p filename Hopen) in Hrun. discriminate.
Qed.

Lemma close_keeps_settled p p' :
  settled p -> close hdf5_call p = Returns tt p' -> settled p'.
Proof.
  intros [Hfid Hp] Hrun.
  destruct (Z_lt_le_dec (file_id (self p)) 0) as [Hclosed | Hopen].
  - rewrite (close_when_closed hdf5_call p Hclosed) in Hrun. discriminate.
  - destruct (hdf5_call (H5Fclose (file_id (self p))) (hdf5 p)) as [r l] eqn:Hlib.
    rewrite (close_when_open hdf5_call p r l Hopen Hlib) in Hrun.
    injection Hrun as <-. unfold settled. cbn [self calls].
    split; [by left |].
    rewrite obtained_app, released_app, Hp, held_open, held_closed
      by (cbn; lia).
    cbn. by rewrite !app_nil_r.
Qed.

Lemma invoke_keeps_settled m p p' :
  settled p -> invoke hdf5_call m p = Returns tt p' -> settled p'.
Proof.
  intros Hp Hrun. destruct m as [filename | | T name len data ft
                                 | T name rank dims data ft
                                 | T parent name data]; cbn in Hrun.
  - by eapply create_keeps_settled.
  - by eapply close_keeps_settled.
  - pose proof (write_dataset_nd_shape hdf5_call T name 1 [len] data ft p) as H.
    unfold wp in H.
    change (write_dataset hdf5_call T name len data ft p)
      with (write_dataset_nd hdf5_call T name 1 [len] data ft p) in Hrun.
    rewrite Hrun in H. apply nd_returned_balanced in H as [Hself H].
    by eapply balanced_keeps_settled.
  - pose proof (write_dataset_nd_shape hdf5_call T name rank dims data ft p) as H.
    unfold wp in H. rewrite Hrun in H.
    apply nd_returned_balanced in H as [Hself H].
    by eapply balanced_keeps_settled.
  - pose proof (write_attribute_shape hdf5_call T parent name data p) as H.
    unfold wp in H. rewrite Hrun in H.
    apply attr_returned_balanced in H as [Hself H].
    by eapply balanced_keeps_settled.
Qed.

Lemma invoke_all_keeps_settled ms :
  forall p p',
    settled p -> invoke_all hdf5_call ms p = Returns tt p' -> settled p'.
Proof.
  induction ms as [| m ms IH]; intros p p' Hp Hrun; cbn in Hrun.
  - by injection Hrun as <-.
  - unfold mbind, M_bind, bind in Hrun.
    destruct (invoke hdf5_call m p) as [[] p1 | |] eqn:Hm; try discriminate.
    eapply IH; [| exact Hrun]. by eapply invoke_keeps_settled.
Qed.

(** No handle is lost over the life of an instance.  After any calls of
    the public methods on a fresh instance that all returned, every
    handle the log shows obtained has been released once by the function
    of its kind, except the file handle the instance holds, if it holds
    one; and once the destructor has returned as well, every handle
    obtained has been released. *)
Theorem life_releases_every_handle l ms p' :
  (invoke_all hdf5_call ms (fresh l) = Returns tt p' ->
   obtained (calls p') ≡ₚ released (calls p') ++ held (self p'))
  /\
  (lifetime hdf5_call ms (fresh l) = Returns tt p' ->
   obtained (calls p') ≡ₚ released (calls p')).
Proof.
  assert (Hfresh : settled (fresh l)).
  { split; [by left |]. reflexivity. }
  split.
  - intros Hrun. by apply (invoke_all_keeps_settled ms _ _ Hfresh Hrun).
  - intros Hrun. unfold lifetime, mbind, M_bind, bind in Hrun.
    destruct (invoke_all hdf5_call ms (fresh l)) as [[] p1 | |] eqn:Hms;
      try discriminate.
    pose proof (invoke_all_keeps_settled ms _ _ Hfresh Hms) as [Hfid Hp1].
    destruct (Z_lt_le_dec (file_id (self p1)) 0) as [Hclosed | Hopen].
    + rewrite destructor_when_closed in Hrun by exact Hclosed.
      injection Hrun as <-. by rewrite Hp1, held_closed, app_nil_r.
    + rewrite destructor_when_open in Hrun by exact Hopen.
      assert (Hp' : settled p').
      { eapply close_keeps_settled; [| exact Hrun]. by split. }
      destruct Hp' as [Hfid' Hp'].
      destruct (hdf5_call (H5Fclose (file_id (self p1))) (hdf5 p1))
        as [r l1] eqn:Hlib.
      rewrite (close_when_open hdf5_call p1 r l1 Hopen Hlib) in Hrun.
      injection Hrun as <-. cbn [self calls] in *.
      by rewrite Hp', held_closed, app_nil_r.
Qed.

End Handles.

(** * Fatal errors *)

Section FailFast.

Context `{env : Hdf5Env}.
Context {L : Type}.
Variable hdf5_call : h5call -> L -> Z * L.

Implicit Types (p : process L) (l : L).

Lemma checks_passed_app es es' :
  checks_passed es -> checks_passed es' -> checks_passed (es ++ es').
Proof. intros H H'. by apply Forall_app. Qed.

Lemma checks_passed_mid prop rank mid : nd_mid prop rank mid -> checks_passed mid.
Proof.
  intros [-> | (chunks & r1 & r2 & r3 & ->)]; unfold checks_passed;
    repeat (apply List.Forall_cons; [discriminate |]); apply List.Forall_nil.
Qed.

Lemma nd_start_split fid T name rank dims ft dspace prop mid dset :
  nd_mid prop rank mid ->
  exists pre,
    nd_start fid T name rank dims ft dspace prop mid dset
    = pre ++ [Ev (H5Dcreate fid (c_str name) (if ft <? 0 then hdf5_type T else ft)
                    dspace
                    H5P_DEFAULT H5P_DEFAULT H5P_DEFAULT) dset] /\
    checks_passed pre.
Proof.
  intros Hmid.
  exists ([Ev (H5Screate_simple rank dims) dspace;
           Ev (H5Pcreate H5P_DATASET_CREATE) prop] ++ mid).
  split; [by rewrite <- app_assoc |].
  apply checks_passed_app; [| by eapply checks_passed_mid].
  unfold checks_passed.
  repeat (apply List.Forall_cons; [discriminate |]); apply List.Forall_nil.
Qed.

Lemma nd_aborted_stopped m T name rank dims data ft p b p' :
  nd_aborted T name rank dims data ft p b p' -> stopped m p p'.
Proof.
  intros (_ & _ & dspace & prop & mid & dset & Hmid & H).
  destruct (nd_start_split (file_id (self p)) T name rank dims ft dspace prop
              mid dset Hmid) as (pre & Hsplit & Hpre).
  destruct H as [(Hdset & Hcalls & _) | (Hdset & r & Hr & Hcalls & _)];
    eexists; (split; [exact Hcalls |]); right.
  - exists pre. eexists. split; [exact Hsplit |]. by repeat split.
  - eexists _, _. split; [reflexivity |]. split; [| by split].
    rewrite Hsplit. apply checks_passed_app; [exact Hpre |].
    apply List.Forall_cons; [by intros _ | apply List.Forall_nil].
Qed.

Lemma attr_aborted_stopped m T parent name data p b p' :
  attr_aborted T parent name data p b p' -> stopped m p p'.
Proof.
  intros (_ & _ & par
          & [(Hpar & Hcalls & _)
            | (Hpar & dspace & attr
               & [(Hattr & Hcalls & _) | (Hattr & r & Hr & Hcalls & _)])]);
    eexists; (split; [exact Hcalls |]); right.
  - exists []. eexists. split; [reflexivity |]. split; [apply List.Forall_nil |].
    by split.
  - exists [Ev (H5Oopen (file_id (self p)) (c_str parent) H5P_DEFAULT) par;
            Ev (H5Screate H5S_SCALAR) dspace].
    eexists. split; [reflexivity |]. split; [| by split].
    apply List.Forall_cons; [by intros _ |].
    apply List.Forall_cons; [discriminate | apply List.Forall_nil].
  - eexists _, _. split; [reflexivity |]. split; [| by split].
    unfold attr_created, attr_opened. cbn [app].
    apply List.Forall_cons; [by intros _ |].
    apply List.Forall_cons; [discriminate |].
    apply List.Forall_cons; [by intros _ | apply List.Forall_nil].
Qed.

(** No method goes on after a failure it tests for, and none terminates
    the process without one.  When a method called with arrays of the
    declared size terminates the process, either it is [create] on an
    instance that holds a handle or [close] on one that holds none, and
    the library was not called at all; or the last call made is a tested
    call that answered with a negative value, and every tested call
    before it had succeeded. *)
Theorem termination_follows_first_failure m p :
  well_formed m ->
  wp (invoke hdf5_call m) (fun _ _ => True)
     (fun _ p' =>
        exists new,
          calls p' = calls p ++ new /\
          ((new = [] /\
            (((exists filename, m = Create filename) /\ 0 <= file_id (self p)) \/
             (m = Close /\ file_id (self p) < 0)))
           \/
           exists pre e,
             new = pre ++ [e] /\ checks_passed pre /\
             checked (ev_call e) = true /\ ev_ret e < 0))
     False p.
Proof.
  intros Hwf.
  change (wp (invoke hdf5_call m) (fun _ _ => True) (fun _ => stopped m p) False p).
  destruct m as [filename | | T name len data ft | T name rank dims data ft
                 | T parent name data]; cbn [invoke].
  - unfold create. wp_run; neg_results.
    + match goal with H : (0 <=? _) = true |- _ => apply Z.leb_le in H end.
      exists []. split; [by rewrite app_nil_r |]. left. split; [reflexivity |].
      left. split; [by exists filename | assumption].
    + eexists. split; [reflexivity |]. right. exists []. eexists.
      split; [reflexivity |]. split; [apply List.Forall_nil |]. by split.
    + exact I.
  - unfold close. wp_run; neg_results.
    + exists []. split; [by rewrite app_nil_r |]. left. split; [reflexivity |].
      by right.
    + exact I.
  - pose proof (write_dataset_nd_shape hdf5_call T name 1 [len] data ft p) as H.
    change (write_dataset hdf5_call T name len data ft)
      with (write_dataset_nd hdf5_call T name 1 [len] data ft).
    unfold wp in *.
    destruct (write_dataset_nd hdf5_call T name 1 [len] data ft p)
      as [[] p' | b p' |]; [exact I | by eapply nd_aborted_stopped | by apply H].
  - pose proof (write_dataset_nd_shape hdf5_call T name rank dims data ft p) as H.
    unfold wp in *.
    destruct (write_dataset_nd hdf5_call T name rank dims data ft p)
      as [[] p' | b p' |]; [exact I | by eapply nd_aborted_stopped | by apply H].
  - pose proof (write_attribute_shape hdf5_call T parent name data p) as H.
    unfold wp in *.
    destruct (write_attribute hdf5_call T parent name data p)
      as [[] p' | b p' |]; [exact I | by eapply attr_aborted_stopped | exact H].
Qed.

End FailFast.

(** * The extents array *)

Section Bounds.

Context `{env : Hdf5Env}.
Context {L : Type}.
Variable hdf5_call : h5call -> L -> Z * L.

Implicit Types (p : process L) (l : L).




Section Within.

Variables (E : bool -> process L -> Prop) (U : Prop).
Variables (rank : Z) (dims : list Z).
Hypothesis Hwithin : (Z.to_nat rank <= length dims)%nat.




End Within.


End Bounds.


(** * Chunking, by the extents *)

Section ChunkingByExtents.

Context `{env : Hdf5Env}.
Context {L : Type}.
Variable hdf5_call : h5call -> L -> Z * L.

Implicit Types (p : process L) (l : L).

Lemma no_chunking_no_chunk (es : list event) :
  Forall (fun e => sets_chunking (ev_call e) = false) es ->
  Forall (fun e => chunk_of (ev_call e) = None) es.
Proof.
  intros H. eapply Forall_impl; [exact H |].
  intros [c r]. by destruct c.
Qed.

Lemma chunks_of_bounds (dims : list Z) :
  Forall (fun d => 0 < d) dims ->
  Forall2 (fun c d => 1 <= c /\ c <= d /\ c <= CHUNK_SIZE) (chunks_of dims) dims.
Proof.
  induction 1 as [| d dims Hd _ IH]; [apply Forall2_nil_2 |].
  apply Forall2_cons_2; [| exact IH]. unfold CHUNK_SIZE. lia.
Qed.

Lemma chunks_of_smaller (dims : list Z) :
  Exists (fun d => CHUNK_SIZE < d) dims ->
  Exists (fun cd => cd.1 < cd.2) (zip (chunks_of dims) dims).
Proof.
  induction 1 as [d dims Hd | d dims _ IH]; cbn.
  - apply List.Exists_cons_hd. cbn. unfold CHUNK_SIZE in *. lia.
  - by apply List.Exists_cons_tl.
Qed.

(** The property list [write_dataset_nd] prepares follows the extents.
    When no extent is 0 and one exceeds 8192, the calls begin with the
    data space, the property list, and on that property list the chunked
    layout, chunks of min(8192, extent) in each dimension and deflate
    level 6, and no other call sets any of the three.  In every other
    case no call sets a layout, chunks or compression at all. *)
Theorem chunking_prepared_by_extents T name dims data ft p :
  let rank := Z.of_nat (length dims) in
  let outcome (p' : process L) :=
    exists new,
      calls p' = calls p ++ new /\
      ((Forall (fun d => d <> 0) dims /\ Exists (fun d => 8192 < d) dims /\
        exists dspace prop r1 r2 r3 rest,
          new = Ev (H5Screate_simple rank dims) dspace
                :: Ev (H5Pcreate H5P_DATASET_CREATE) prop
                :: Ev (H5Pset_layout prop H5D_CHUNKED) r1
                :: Ev (H5Pset_chunk prop rank (Z.min 8192 <$> dims)) r2
                :: Ev (H5Pset_deflate prop 6) r3
                :: rest /\
          Forall (fun e => sets_chunking (ev_call e) = false) rest)
       \/
       (~ (Forall (fun d => d <> 0) dims /\ Exists (fun d => 8192 < d) dims) /\
        Forall (fun e => sets_chunking (ev_call e) = false) new)) in
  wp (write_dataset_nd hdf5_call T name rank dims data ft)
     (fun _ => outcome) (fun _ => outcome) False p.
Proof.
  intros rank outcome.
  assert (Hprep : forall new, prepared dims new ->
                              forall p', calls p' = calls p ++ new -> outcome p').
  { intros new Hnew p' Hcalls. exists new. split; [exact Hcalls |].
    unfold prepared in Hnew. destruct (chunk_wanted dims) eqn:Hw.
    - left. apply chunk_wanted_iff in Hw as [Hnz Hlg]. by repeat split.
    - right. split; [| exact Hnew].
      intros H. apply chunk_wanted_iff in H. congruence. }
  pose proof (write_dataset_nd_prepares_chunking hdf5_call T name dims data ft p)
    as H.
  unfold wp in *. fold rank in H.
  destruct (write_dataset_nd hdf5_call T name rank dims data ft p)
    as [[] p' | b p' |]; [| | exact H];
    destruct H as (new & Hcalls & Hnew); by eapply Hprep.
Qed.

(** The chunks fit the dataset.  With extents that are not negative, as
    [hsize_t] has them, every [H5Pset_chunk] call [write_dataset_nd]
    makes announces the rank of the dataset and gives, for each
    dimension, a chunk extent of at least 1, at most the extent of the
    dataset and at most 8192; and in one dimension at least the chunk is
    smaller than the dataset, so that the dataset has more than one
    chunk. *)
Theorem chunks_fit_the_extents T name dims data ft p :
  Forall (fun d => 0 <= d) dims ->
  let rank := Z.of_nat (length dims) in
  let outcome (p' : process L) :=
    exists new,
      calls p' = calls p ++ new /\
      Forall (fun e =>
                forall ndims chunk,
                  chunk_of (ev_call e) = Some (ndims, chunk) ->
                  ndims = rank /\
                  Forall2 (fun c d => 1 <= c /\ c <= d /\ c <= 8192) chunk dims /\
                  Exists (fun cd => cd.1 < cd.2) (zip chunk dims)) new in
  wp (write_dataset_nd hdf5_call T name rank dims data ft)
     (fun _ => outcome) (fun _ => outcome) False p.
Proof.
  intros Hdims rank outcome.
  assert (Hprep : forall new, prepared dims new ->
                              forall p', calls p' = calls p ++ new -> outcome p').
  { intros new Hnew p' Hcalls. exists new. split; [exact Hcalls |].
    unfold prepared in Hnew. destruct (chunk_wanted dims) eqn:Hw.
    - apply chunk_wanted_iff in Hw as [Hnz Hlg].
      destruct Hnew as (dspace & prop & r1 & r2 & r3 & rest & -> & Hrest).
      assert (Hpos : Forall (fun d => 0 < d) dims).
      { rewrite Forall_forall in *. intros d Hd.
        specialize (Hdims d Hd). specialize (Hnz d Hd). lia. }
      do 3 (apply List.Forall_cons; [by intros ? ? [=] |]).
      apply List.Forall_cons.
      { intros ndims chunk [= <- <-]. split; [reflexivity |].
        split; [apply (chunks_of_bounds dims Hpos)
               | apply (chunks_of_smaller dims Hlg)]. }
      apply List.Forall_cons; [by intros ? ? [=] |].
      eapply Forall_impl; [apply (no_chunking_no_chunk _ Hrest) |].
      intros e He ndims chunk Hc. congruence.
    - eapply Forall_impl; [apply (no_chunking_no_chunk _ Hnew) |].
      intros e He ndims chunk Hc. congruence. }
  pose proof (write_dataset_nd_prepares_chunking hdf5_call T name dims data ft p)
    as H.
  unfold wp in *. fold rank in H.
  destruct (write_dataset_nd hdf5_call T name rank dims data ft p)
    as [[] p' | b p' |]; [| | exact H];
    destruct H as (new & Hcalls & Hnew); by eapply Hprep.
Qed.

(** For a 1-D dataset the threshold is the length.  [write_dataset]
    prepares chunks of exactly 8192 elements and deflate level 6 when the
    length exceeds 8192, and sets no layout, chunks or compression for a
    length up to 8192, zero included. *)
Theorem write_dataset_chunks_above_8192 T name len data ft p :
  let outcome (p' : process L) :=
    exists new,
      calls p' = calls p ++ new /\
      ((8192 < len /\
        exists dspace prop r1 r2 r3 rest,
          new = Ev (H5Screate_simple 1 [len]) dspace
                :: Ev (H5Pcreate H5P_DATASET_CREATE) prop
                :: Ev (H5Pset_layout prop H5D_CHUNKED) r1
                :: Ev (H5Pset_chunk prop 1 [8192]) r2
                :: Ev (H5Pset_deflate prop 6) r3
                :: rest /\
          Forall (fun e => sets_chunking (ev_call e) = false) rest)
       \/
       (len <= 8192 /\
        Forall (fun e => sets_chunking (ev_call e) = false) new)) in
  wp (write_dataset hdf5_call T name len data ft)
     (fun _ => outcome) (fun _ => outcome) False p.
Proof.
  intros outcome.
  assert (Hw : chunk_wanted [len] = true <-> 8192 < len).
  { rewrite chunk_wanted_iff, Forall_singleton, Exists_cons, Exists_nil.
    unfold CHUNK_SIZE. lia. }
  assert (Hprep : forall new, prepared [len] new ->
                              forall p', calls p' = calls p ++ new -> outcome p').
  { intros new Hnew p' Hcalls. exists new. split; [exact Hcalls |].
    unfold prepared in Hnew.
    destruct (Z_lt_le_dec 8192 len) as [Hlt | Hle].
    - left. split; [exact Hlt |]. rewrite (proj2 Hw Hlt) in Hnew.
      destruct Hnew as (dspace & prop & r1 & r2 & r3 & rest & -> & Hrest).
      exists dspace, prop, r1, r2, r3, rest. split; [| exact Hrest].
      cbn. unfold CHUNK_SIZE, DEFLATE. by rewrite Z.min_l by lia.
    - right. split; [exact Hle |].
      assert (Hc : chunk_wanted [len] = false).
      { apply not_true_is_false. rewrite Hw. lia. }
      by rewrite Hc in Hnew. }
  pose proof (write_dataset_nd_prepares_chunking hdf5_call T name [len] data ft p)
    as H.
  change (write_dataset hdf5_call T name len data ft)
    with (write_dataset_nd hdf5_call T name 1 [len] data ft).
  change (Z.of_nat (length [len])) with 1 in H. unfold wp in *.
  destruct (write_dataset_nd hdf5_call T name 1 [len] data ft p)
    as [[] p' | b p' |]; [| | exact H];
    destruct H as (new & Hcalls & Hnew); by eapply Hprep.
Qed.

(** * Writing without a file *)

End ChunkingByExtents.

(** A message that begins otherwise is none of the misuse messages. *)
Ltac not_misuse :=
  let Hin := fresh "Hin" in
  intros Hin; unfold misuse_messages in Hin;
  apply elem_of_cons in Hin as [Hin | Hin];
  [| apply list_elem_of_singleton in Hin];
  vm_compute in Hin; discriminate.

Section WithoutFile.

Context `{env : Hdf5Env}.
Context {L : Type}.
Variable hdf5_call : h5call -> L -> Z * L.

Implicit Types (p : process L) (l : L).


(** The writers do not test whether a file is open.  Whatever the member
    holds, -1 included, [write_dataset_nd] asks the library to create the
    dataset at that location, and the first thing [write_attribute] does
    is to ask the library to open the parent at that location; and when
    they terminate the process, the line they print is one of their own
    messages for a failed call, never one of the two messages for a
    misuse of the handle. *)
Theorem writers_do_not_test_for_an_open_file p :
  (forall T name rank dims data ft,
      let created (new : list event) :=
        Exists (fun e => exists dtype dspace,
                    ev_call e = H5Dcreate (file_id (self p)) (c_str name) dtype
                                  dspace H5P_DEFAULT H5P_DEFAULT H5P_DEFAULT)
               new in
      wp (write_dataset_nd hdf5_call T name rank dims data ft)
         (fun _ p' => exists new, calls p' = calls p ++ new /\ created new)
         (fun _ p' =>
            (exists new, calls p' = calls p ++ new /\ created new) /\
            exists msg, cerr p' = cerr p ++ [msg] /\ msg ∉ misuse_messages)
         True p)
  /\
  (forall T parent name data,
      let opened (p' : process L) :=
        exists par rest,
          calls p' = calls p ++
                     Ev (H5Oopen (file_id (self p)) (c_str parent) H5P_DEFAULT) par
                     :: rest in
      wp (write_attribute hdf5_call T parent name data)
         (fun _ p' => opened p')
         (fun _ p' =>
            opened p' /\
            exists msg, cerr p' = cerr p ++ [msg] /\ msg ∉ misuse_messages)
         False p).
Proof.
  assert (Hstart : forall T name rank dims ft dspace prop mid dset tail,
             Exists (fun e => exists dtype dsp,
                         ev_call e = H5Dcreate (file_id (self p)) (c_str name) dtype
                                       dsp H5P_DEFAULT H5P_DEFAULT H5P_DEFAULT)
               (nd_start (file_id (self p)) T name rank dims ft dspace prop mid dset
                ++ tail)).
  { intros. unfold nd_start. cbn [app].
    do 2 apply List.Exists_cons_tl. rewrite <- app_assoc.
    apply Exists_app. right. apply List.Exists_cons_hd. by eexists _, _. }
  split.
  - intros T name rank dims data ft created.
    pose proof (write_dataset_nd_shape hdf5_call T name rank dims data ft p) as H.
    unfold wp in *.
    destruct (write_dataset_nd hdf5_call T name rank dims data ft p)
      as [[] p' | b p' |]; [| | exact I].
    + destruct H as (_ & _ & dspace & prop & mid & dset & r & r1 & r2 & r3
                     & _ & _ & _ & Hcalls).
      eexists. split; [exact Hcalls | apply Hstart].
    + destruct H as (_ & _ & dspace & prop & mid & dset & _
                     & [(_ & Hcalls & Hcerr) | (_ & r & _ & Hcalls & Hcerr)]).
      * split.
        -- eexists. split; [exact Hcalls |].
           rewrite <- (app_nil_r (nd_start _ _ _ _ _ _ _ _ _ _)). apply Hstart.
        -- eexists. split; [exact Hcerr |]. not_misuse.
      * split.
        -- eexists. split; [exact Hcalls | apply Hstart].
        -- eexists. split; [exact Hcerr |]. not_misuse.
  - intros T parent name data opened.
    pose proof (write_attribute_shape hdf5_call T parent name data p) as H.
    unfold wp in *.
    destruct (write_attribute hdf5_call T parent name data p)
      as [[] p' | b p' |]; [| | exact H].
    + destruct H as (_ & _ & par & dspace & attr & r & r1 & r2 & r3
                     & _ & _ & _ & Hcalls).
      eexists _, _. exact Hcalls.
    + destruct H as (_ & _ & par
                     & [(_ & Hcalls & Hcerr)
                       | (_ & dspace & attr
                          & [(_ & Hcalls & Hcerr) | (_ & r & _ & Hcalls & Hcerr)])]).
      all: split;
        [ eexists _, _; exact Hcalls
        | eexists; split; [exact Hcerr |]; not_misuse ].
Qed.

End WithoutFile.

(** * Runs on the model *)

(** An attribute for a parent the file does not hold: the run stops at the
    failed [H5Oopen], the first call it made. *)
Lemma termination_follows_first_failure_witness :
  let m := WriteAttribute c_double "/missing" "time" 4609434218613702656 in
  wp (invoke Hdf5Model.answer m) (fun _ _ => True)
     (fun _ p' =>
        exists new,
          calls p' = calls opened_process ++ new /\
          ((new = [] /\
            (((exists filename, m = Create filename) /\
              0 <= file_id (self opened_process)) \/
             (m = Close /\ file_id (self opened_process) < 0)))
           \/
           exists pre e,
             new = pre ++ [e] /\ checks_passed pre /\
             checked (ev_call e) = true /\ ev_ret e < 0))
     False opened_process.
Proof.
  intros m.
  apply (termination_follows_first_failure Hdf5Model.answer m opened_process).
  exact I.
Defined.

(** What that run leaves: one call, one line, no attribute. *)
Example missing_parent_run :
  write_attribute Hdf5Model.answer c_double "/missing" "time" 4609434218613702656
    opened_process
  = Aborts false
      (Process {| file_id := 100 |} (hdf5 opened_process)
         [Ev (H5Fcreate "out.h5" H5F_ACC_TRUNC H5P_DEFAULT H5P_DEFAULT) 100;
          Ev (H5Oopen 100 "/missing" H5P_DEFAULT) (-1)]
         ["Unable to open object to write attribute: time"]).
Proof. vm_compute. reflexivity. Qed.

(** The extents [3; 20000]: the chunks are [3; 8192]. *)
Lemma chunks_fit_the_extents_witness :
  let dims := [3; 20000] in
  let rank := Z.of_nat (length dims) in
  let outcome (p' : process Hdf5Model.state) :=
    exists new,
      calls p' = calls opened_process ++ new /\
      Forall (fun e =>
                forall ndims chunk,
                  chunk_of (ev_call e) = Some (ndims, chunk) ->
                  ndims = rank /\
                  Forall2 (fun c d => 1 <= c /\ c <= d /\ c <= 8192) chunk dims /\
                  Exists (fun cd => cd.1 < cd.2) (zip chunk dims)) new in
  wp (write_dataset_nd Hdf5Model.answer c_double "/positions" rank dims []
        default_filetype_id)
     (fun _ => outcome) (fun _ => outcome) False opened_process.
Proof.
  intros dims rank outcome.
  apply (chunks_fit_the_extents Hdf5Model.answer c_double "/positions" dims []
           default_filetype_id opened_process).
  repeat (apply List.Forall_cons; [lia |]). apply List.Forall_nil.
Defined.

(** A life on the model with a dataset and an attribute written and no
    [close] by the client. *)
Lemma life_releases_every_handle_witness :
  exists p',
    lifetime Hdf5Model.answer
      [Create "out.h5";
       WriteDataset c_int "/ids" 3 [1; 2; 3] default_filetype_id;
       WriteAttribute c_int "/" "count" 3]
      (fresh Hdf5Model.empty) = Returns tt p' /\
    obtained (calls p') ≡ₚ released (calls p').
Proof.
  destruct (lifetime Hdf5Model.answer
              [Create "out.h5";
               WriteDataset c_int "/ids" 3 [1; 2; 3] default_filetype_id;
               WriteAttribute c_int "/" "count" 3]
              (fresh Hdf5Model.empty)) as [[] p' | b p' |] eqn:Hrun.
  - exists p'. split; [reflexivity |].
    exact (proj2 (life_releases_every_handle Hdf5Model.answer Hdf5Model.empty
                    _ p') Hrun).
  - vm_compute in Hrun. discriminate.
  - vm_compute in Hrun. discriminate.
Defined.

(** A dataset written on an instance that never created a file: the
    library is asked to create it at location -1 and refuses. *)
Example write_without_file_run :
  write_dataset Hdf5Model.answer c_int "/ids" 3 [1; 2; 3] default_filetype_id
    (fresh Hdf5Model.empty)
  = Aborts false
      (Process constructor (Hdf5Model.State 102
                              {[100 := Hdf5Model.HSpace (Some [3]);
                                101 := Hdf5Model.HPlist Hdf5Model.default_dcpl]}
                              ∅ [])
         [Ev (H5Screate_simple 1 [3]) 100;
          Ev (H5Pcreate H5P_DATASET_CREATE) 101;
          Ev (H5Dcreate (-1) "/ids" H5T_NATIVE_INT 100
                H5P_DEFAULT H5P_DEFAULT H5P_DEFAULT) (-1)]
         ["Failed to create dataset: /ids"]).
Proof. vm_compute. reflexivity. Qed.

(** The library reads a name up to its first NUL; a name without one is
    handed over whole. *)
Example c_str_stops_at_NUL :
  c_str ("/ids" +:+ String Ascii.zero "old") = "/ids"
  /\ c_str "/positions" = "/positions".
Proof. split; reflexivity. Qed.

(** * Failures, message by message *)

Section Failures.

Context `{env : Hdf5Env}.
Context {L : Type}.
Variable hdf5_call : h5call -> L -> Z * L.

Implicit Types (p : process L) (l : L).

Lemma returned_on_return ok p p' : returned ok p p' -> on_return p tt p'.
Proof. intros (_ & Hcerr & new & Hcalls & _ & Hchecks). split; eauto. Qed.

Lemma name_in_message (pre name : string) :
  occurs_in name (pre +:+ name) = true.
Proof. apply occurs_in_app_r, occurs_in_prefix, is_prefix_refl. Qed.

Lemma name_inside_message (pre name post : string) :
  occurs_in name (pre +:+ name +:+ post) = true.
Proof. apply occurs_in_app_r, occurs_in_prefix, is_prefix_app. Qed.

Lemma nd_aborted_on_abort m T name rank dims data ft p b p' :
  subject m = Some name ->
  (forall loc nm ty sp a b c,
      failure_message m (H5Dcreate loc nm ty sp a b c)
      = Some ("Failed to create dataset: " +:+ name)) ->
  (forall ds mt ms fs x buf,
      failure_message m (H5Dwrite ds mt ms fs x buf)
      = Some ("Failed to write dataset: " +:+ name)) ->
  nd_aborted T name rank dims data ft p b p' -> on_abort m p b p'.
Proof.
  intros Hsubj Hcreate Hwrite (Hb & _ & dspace & prop & mid & dset & Hmid & H).
  split; [exact Hb |].
  destruct (nd_start_split (file_id (self p)) T name rank dims ft dspace prop
              mid dset Hmid) as (pre & Hsplit & _).
  destruct H as [(Hdset & Hcalls & Hcerr) | (Hdset & r & Hr & Hcalls & Hcerr)];
    eexists _, _; (split; [exact Hcalls |]); (split; [exact Hcerr |]); right.
  - exists pre. eexists _, name. split; [exact Hsplit |].
    split; [reflexivity |]. split; [exact Hdset |].
    split; [apply Hcreate |]. split; [exact Hsubj | apply name_in_message].
  - eexists _, _, name. split; [reflexivity |].
    split; [reflexivity |]. split; [exact Hr |].
    split; [apply Hwrite |]. split; [exact Hsubj | apply name_in_message].
Qed.

Lemma attr_aborted_on_abort T parent name data p b p' :
  attr_aborted T parent name data p b p' ->
  on_abort (WriteAttribute T parent name data) p b p'.
Proof.
  intros (Hb & _ & par
          & [(Hpar & Hcalls & Hcerr)
            | (Hpar & dspace & attr
               & [(Hattr & Hcalls & Hcerr) | (Hattr & r & Hr & Hcalls & Hcerr)])]);
    (split; [exact Hb |]); eexists _, _;
    (split; [exact Hcalls |]); (split; [exact Hcerr |]); right.
  - exists []. eexists _, name. split; [reflexivity |]. split; [reflexivity |].
    split; [exact Hpar |]. split; [reflexivity |].
    split; [reflexivity | apply name_in_message].
  - exists [Ev (H5Oopen (file_id (self p)) (c_str parent) H5P_DEFAULT) par;
            Ev (H5Screate H5S_SCALAR) dspace].
    eexists _, name. split; [reflexivity |]. split; [reflexivity |].
    split; [exact Hattr |]. split; [reflexivity |].
    split; [reflexivity | apply name_inside_message].
  - eexists _, _, name. split; [reflexivity |]. split; [reflexivity |].
    split; [exact Hr |]. split; [reflexivity |].
    split; [reflexivity | apply name_inside_message].
Qed.

(** C8, as amended.  A method called with arrays of the declared size
    either returns or terminates the process.  When it returns, nothing
    was printed and every call whose result the header tests answered
    with success.  When it terminates (after [MPI_Abort] under [USEMPI]),
    exactly one line was printed before.  Either the method is [create]
    on an instance that holds a handle, or [close] on one that holds
    none: then the library was not called and the line is the fixed text
    of that misuse, which names nothing.  Or the last call made is a
    tested call that answered with a failure: then the line is the
    message of that call, and it contains the file name given to
    [create], the dataset name given to a dataset writer or the attribute
    name given to [write_attribute]. *)
Theorem detected_failures_are_fatal m p :
  well_formed m ->
  wp (invoke hdf5_call m)
     (fun _ p' =>
        cerr p' = cerr p /\
        exists new, calls p' = calls p ++ new /\ checks_passed new)
     (fun b p' =>
        b = USEMPI /\
        exists new msg,
          calls p' = calls p ++ new /\
          cerr p' = cerr p ++ [msg] /\
          ((new = [] /\
            (((exists filename, m = Create filename) /\
              0 <= file_id (self p) /\
              msg = "Attempted to create file when already open!") \/
             (m = Close /\ file_id (self p) < 0 /\
              msg = "Attempted to close file which is not open!")))
           \/
           exists pre e n,
             new = pre ++ [e] /\
             checked (ev_call e) = true /\ ev_ret e < 0 /\
             failure_message m (ev_call e) = Some msg /\
             subject m = Some n /\ occurs_in n msg = true))
     False p.
Proof.
  intros Hwf.
  change (wp (invoke hdf5_call m) (on_return p) (on_abort m p) False p).
  destruct m as [filename | | T name len data ft | T name rank dims data ft
                 | T parent name data]; cbn [invoke].
  - unfold create. wp_run; neg_results.
    + match goal with H : (0 <=? _) = true |- _ => apply Z.leb_le in H end.
      split; [reflexivity |]. exists []. eexists.
      split; [by rewrite app_nil_r |]. split; [reflexivity |].
      left. split; [reflexivity |]. left.
      split; [by exists filename |]. by split.
    + split; [reflexivity |]. eexists _, _.
      split; [reflexivity |]. split; [reflexivity |].
      right. exists []. eexists _, filename.
      split; [reflexivity |]. split; [reflexivity |].
      split; [assumption |]. split; [reflexivity |].
      split; [reflexivity | apply name_in_message].
    + nonneg_results. split; [reflexivity |]. log_split.
      each_event check_ok.
  - unfold close. wp_run; neg_results.
    + split; [reflexivity |]. exists []. eexists.
      split; [by rewrite app_nil_r |]. split; [reflexivity |].
      left. split; [reflexivity |]. right. by repeat split.
    + split; [reflexivity |]. log_split. each_event check_ok.
  - pose proof (write_dataset_nd_runs hdf5_call T name 1 [len] data ft p) as Hr.
    pose proof (write_dataset_nd_shape hdf5_call T name 1 [len] data ft p) as Hs.
    change (write_dataset hdf5_call T name len data ft)
      with (write_dataset_nd hdf5_call T name 1 [len] data ft).
    unfold wp in *.
    destruct (write_dataset_nd hdf5_call T name 1 [len] data ft p)
      as [[] p' | b p' |].
    + by eapply returned_on_return.
    + by eapply nd_aborted_on_abort.
    + by apply Hr.
  - pose proof (write_dataset_nd_runs hdf5_call T name rank dims data ft p) as Hr.
    pose proof (write_dataset_nd_shape hdf5_call T name rank dims data ft p) as Hs.
    unfold wp in *.
    destruct (write_dataset_nd hdf5_call T name rank dims data ft p)
      as [[] p' | b p' |].
    + by eapply returned_on_return.
    + by eapply nd_aborted_on_abort.
    + by apply Hr.
  - pose proof (write_attribute_runs hdf5_call T parent name data p) as Hr.
    pose proof (write_attribute_shape hdf5_call T parent name data p) as Hs.
    unfold wp in *.
    destruct (write_attribute hdf5_call T parent name data p)
      as [[] p' | b p' |].
    + by eapply returned_on_return.
    + by apply attr_aborted_on_abort.
    + exact Hr.
Qed.

End Failures.

(** A run of C8 on the model that fails: a dataset of rank 0 is asked for
    in the open file "out.h5".  The library refuses the data space, which
    the header does not test, and then the dataset, which it does. *)
Lemma detected_failures_are_fatal_witness :
  let m :=
    WriteDatasetNd c_double "/scalar" 0 [] [4609434218613702656]
      default_filetype_id in
  wp (invoke Hdf5Model.answer m)
     (fun _ p' =>
        cerr p' = cerr opened_process /\
        exists new, calls p' = calls opened_process ++ new /\ checks_passed new)
     (fun b p' =>
        b = USEMPI /\
        exists new msg,
          calls p' = calls opened_process ++ new /\
          cerr p' = cerr opened_process ++ [msg] /\
          ((new = [] /\
            (((exists filename, m = Create filename) /\
              0 <= file_id (self opened_process) /\
              msg = "Attempted to create file when already open!") \/
             (m = Close /\ file_id (self opened_process) < 0 /\
              msg = "Attempted to close file which is not open!")))
           \/
           exists pre e n,
             new = pre ++ [e] /\
             checked (ev_call e) = true /\ ev_ret e < 0 /\
             failure_message m (ev_call e) = Some msg /\
             subject m = Some n /\ occurs_in n msg = true))
     False opened_process.
Proof.
  intros m.
  apply (detected_failures_are_fatal Hdf5Model.answer m opened_process).
  reflexivity.
Defined.

(** What that run leaves: the failed creation is the last call, and the
    line printed names the dataset. *)
Example failed_dataset_run :
  write_dataset_nd Hdf5Model.answer c_double "/scalar" 0 []
    [4609434218613702656] default_filetype_id opened_process
  = Aborts false
      (Process {| file_id := 100 |}
         (Hdf5Model.State 102
            {[100 := Hdf5Model.HFile "out.h5";
              101 := Hdf5Model.HPlist Hdf5Model.default_dcpl]} ∅ [])
         [Ev (H5Fcreate "out.h5" H5F_ACC_TRUNC H5P_DEFAULT H5P_DEFAULT) 100;
          Ev (H5Screate_simple 0 []) (-1);
          Ev (H5Pcreate H5P_DATASET_CREATE) 101;
          Ev (H5Dcreate 100 "/scalar" H5T_NATIVE_DOUBLE (-1)
                H5P_DEFAULT H5P_DEFAULT H5P_DEFAULT) (-1)]
         ["Failed to create dataset: /scalar"]).
Proof. vm_compute. reflexivity. Qed.
